(** * SentimentDemo: the heuristic sentiment detector

    A shallow embedding of [detectSentiment] from
    [src/components/SentimentDemo.tsx], and the properties of it that the
    specification states.

    Strings are JavaScript strings: finite sequences of UTF-16 code units.
    Numbers are JavaScript numbers; the counters and lengths are integers
    ([Z]), and the score and the confidences are read as real numbers ([R]),
    as the specification does ("a single signed real number",
    "confidence: real number in [0,1]"): rounding of the binary64
    arithmetic is not modelled. *)

From Stdlib Require Import Ascii String.
From Stdlib Require Import List ZArith Bool Reals Lra Lia.
Import ListNotations.

(** ** JavaScript strings *)

Module JSString.

Local Open Scope Z_scope.

(** A string is the list of its UTF-16 code units, each in [0, 0xFFFF]. *)
Definition t := list Z.

(** Strict equality [===] of two strings. *)
Fixpoint eqb (a b : t) : bool :=
  match a, b with
  | [], [] => true
  | x :: a', y :: b' => (x =? y) && eqb a' b'
  | _, _ => false
  end.

(** *** Literals

    A literal of the source file is UTF-8 text; the engine holds it as
    UTF-16.  [lit] does the same with a literal of this file: it decodes
    the UTF-8 bytes into code points and encodes each one in UTF-16. *)

Fixpoint utf8_decode (need : nat) (acc : Z) (bytes : list Z) : list Z :=
  match bytes with
  | [] => []
  | b :: rest =>
      match need with
      | O =>
          if b <? 0x80 then b :: utf8_decode 0 0 rest
          else if b <? 0xE0 then utf8_decode 1 (b - 0xC0) rest
          else if b <? 0xF0 then utf8_decode 2 (b - 0xE0) rest
          else utf8_decode 3 (b - 0xF0) rest
      | S O => (acc * 64 + (b - 0x80)) :: utf8_decode 0 0 rest
      | S n => utf8_decode n (acc * 64 + (b - 0x80)) rest
      end
  end.

Definition utf16_encode (cp : Z) : t :=
  if cp <? 0x10000 then [cp]
  else [0xD800 + (cp - 0x10000) / 0x400; 0xDC00 + (cp - 0x10000) mod 0x400].

Definition lit (s : string) : t :=
  flat_map utf16_encode
    (utf8_decode 0 0
       (map (fun a => Z.of_nat (nat_of_ascii a)) (list_ascii_of_string s))).

(** *** Character classes *)

(** WhiteSpace and LineTerminator of ECMAScript: what [trim] strips and what
    [\s] matches. *)
Definition is_space (c : Z) : bool :=
  (c =? 0x09) || (c =? 0x0A) || (c =? 0x0B) || (c =? 0x0C) || (c =? 0x0D)
  || (c =? 0x20) || (c =? 0xA0) || (c =? 0x1680)
  || ((0x2000 <=? c) && (c <=? 0x200A))
  || (c =? 0x2028) || (c =? 0x2029) || (c =? 0x202F) || (c =? 0x205F)
  || (c =? 0x3000) || (c =? 0xFEFF).

Definition is_high_surrogate (c : Z) : bool := (0xD800 <=? c) && (c <=? 0xDBFF).
Definition is_low_surrogate (c : Z) : bool := (0xDC00 <=? c) && (c <=? 0xDFFF).

(** *** [String.prototype.trim] *)

Fixpoint trimStart (s : t) : t :=
  match s with
  | [] => []
  | c :: rest => if is_space c then trimStart rest else s
  end.

Definition trimEnd (s : t) : t := rev (trimStart (rev s)).

Definition trim (s : t) : t := trimEnd (trimStart s).

(** The empty string is the one falsy string. *)
Definition falsy (s : t) : bool :=
  match s with [] => true | _ :: _ => false end.

(** *** [Array.from] on a string

    The string iterator yields one string per code point: a high surrogate
    followed by a low surrogate is yielded as one two-unit string, every
    other code unit on its own. *)
Fixpoint Array_from (s : t) : list t :=
  match s with
  | [] => []
  | c :: rest =>
      match rest with
      | d :: rest' =>
          if is_high_surrogate c && is_low_surrogate d
          then [c; d] :: Array_from rest'
          else [c] :: Array_from rest
      | [] => [[c]]
      end
  end.

(** *** [String.prototype.toLowerCase]

    The mapping is given on the ASCII range and on the two other
    characters whose lower-case form contains an ASCII letter: KELVIN SIGN
    (U+212A, to "k") and LATIN CAPITAL LETTER I WITH DOT ABOVE (U+0130, to
    "i" followed by U+0307).  Every other case mapping of Unicode sends a
    character outside ASCII and outside white space to characters of the
    same kind; they are left in place here, and [normalize] below replaces
    either form by spaces. *)
Definition lower_unit (c : Z) : t :=
  if (0x41 <=? c) && (c <=? 0x5A) then [c + 0x20]
  else if c =? 0x212A then [0x6B]
  else if c =? 0x130 then [0x69; 0x307]
  else [c].

Definition toLowerCase (s : t) : t := flat_map lower_unit s.

(** *** [split(/\s+/)]

    The pieces between the maximal runs of white space, the empty first and
    last piece included.  [insep] tells that the previous unit was white
    space; [cur] is the piece being read. *)
Fixpoint split_go (insep : bool) (cur : t) (s : t) : list t :=
  match s with
  | [] => [cur]
  | c :: rest =>
      if is_space c then
        if insep then split_go true [] rest
        else cur :: split_go true [] rest
      else split_go false (cur ++ [c]) rest
  end.

Definition split_ws (s : t) : list t := split_go false [] s.

(** [filter(Boolean)] on an array of strings keeps the non-empty ones. *)
Definition filter_Boolean (l : list t) : list t :=
  filter (fun s => negb (falsy s)) l.

(** [Set.prototype.has] on a set of strings built from an array literal. *)
Definition has (set : list t) (s : t) : bool := existsb (eqb s) set.

End JSString.

Local Open Scope Z_scope.

Definition jsstring := JSString.t.
Notation "'js' s" := (JSString.lit s%string) (at level 9, s at level 0, only parsing).

(** ** The detector *)

Inductive Sentiment := positive | neutral | negative.

Definition Sentiment_eqb (a b : Sentiment) : bool :=
  match a, b with
  | positive, positive | neutral, neutral | negative, negative => true
  | _, _ => false
  end.

Record Result := { sentiment : Sentiment; confidence : R }.

(** *** The fixed sets (lines 21-23 and 41-44) *)

Definition positiveEmojis : list jsstring :=
  map JSString.lit
    ["😊";"😃";"😄";"😁";"🙂";"😀";"😍";"🥰";"😘";"🤗";"🎉";"👍";"❤️";"💖";"✨";"🌟";"💯"]%string.
Definition negativeEmojis : list jsstring :=
  map JSString.lit
    ["😢";"😭";"😞";"😔";"☹️";"🙁";"😣";"😖";"😫";"😩";"😤";"😠";"😡";"💔";"👎"]%string.
Definition neutralEmojis : list jsstring :=
  map JSString.lit ["😐";"😑";"🤔";"😶";"🙄";"🤷"]%string.

Definition positiveWords : list jsstring :=
  map JSString.lit
    ["good";"great";"awesome";"amazing";"love";"loved";"like";"liked";
     "fantastic";"excellent";"best";"nice";"happy";"joy";"glad";"wonderful";
     "helpful";"brilliant";"recommend";"cool"]%string.
Definition negativeWords : list jsstring :=
  map JSString.lit
    ["bad";"terrible";"awful";"hate";"hated";"dislike";"disliked";"worst";
     "poor";"sad";"angry";"disappointed";"disappointing";"broken";"bug";
     "spam";"boring";"annoying";"trash";"waste"]%string.
Definition negations : list jsstring :=
  map JSString.lit
    ["not";"never";"no";"dont";"doesnt";"didnt";"isnt";"wasnt";"cant";
     "cannot";"wont";"won't"]%string.
Definition intensifiers : list jsstring :=
  map JSString.lit
    ["very";"really";"extremely";"super";"totally";"completely";
     "absolutely";"so"]%string.

(** *** The emoji pass (lines 25-35) *)

Record Tally := { posEmoji : Z; negEmoji : Z; neuEmoji : Z }.

Definition tally_step (c : Tally) (ch : jsstring) : Tally :=
  if JSString.has positiveEmojis ch then
    {| posEmoji := posEmoji c + 1; negEmoji := negEmoji c; neuEmoji := neuEmoji c |}
  else if JSString.has negativeEmojis ch then
    {| posEmoji := posEmoji c; negEmoji := negEmoji c + 1; neuEmoji := neuEmoji c |}
  else if JSString.has neutralEmojis ch then
    {| posEmoji := posEmoji c; negEmoji := negEmoji c; neuEmoji := neuEmoji c + 1 |}
  else c.

Definition tally (text : jsstring) : Tally :=
  fold_left tally_step (JSString.Array_from text)
    {| posEmoji := 0; negEmoji := 0; neuEmoji := 0 |}.

Definition totalEmoji (c : Tally) : Z := posEmoji c + negEmoji c + neuEmoji c.

(** *** The word pass (lines 38-39) *)

(** The class [[a-z0-9'_\s]] of the regular expression, on one code unit. *)
Definition kept (c : Z) : bool :=
  ((0x61 <=? c) && (c <=? 0x7A)) || ((0x30 <=? c) && (c <=? 0x39))
  || (c =? 0x27) || (c =? 0x5F) || JSString.is_space c.

Definition normalize (s : jsstring) : jsstring :=
  map (fun c => if kept c then c else 0x20) (JSString.toLowerCase s).

Definition tokens (text : jsstring) : list jsstring :=
  JSString.filter_Boolean (JSString.split_ws (normalize text)).

(** *** The lexicon score (lines 46-60) *)

(** Lines 51-52, and again 56-57: the two adjustments of a weight, both
    read off the one token before position [i]. *)
Definition adjust (tokens : list jsstring) (i : nat) (weight : R) : R :=
  let weight :=
    if (0 <? i)%nat && JSString.has intensifiers (nth (i - 1) tokens [])
    then (weight * 1.6)%R else weight in
  let weight :=
    if (0 <? i)%nat && JSString.has negations (nth (i - 1) tokens [])
    then (weight * -1)%R else weight in
  weight.

(** The body of the loop, at index [i]. *)
Definition score_step (tokens : list jsstring) (score : R) (i : nat) : R :=
  let w := nth i tokens [] in
  if JSString.has positiveWords w then (score + adjust tokens i 1)%R
  else if JSString.has negativeWords w then (score + adjust tokens i (-1))%R
  else score.

Definition wordScore (tokens : list jsstring) : R :=
  fold_left (score_step tokens) (seq 0 (length tokens)) 0%R.

(** *** Label and confidence of the words (lines 63-66) *)

Definition wordSentiment (score : R) : Sentiment :=
  if Rlt_dec 0.5 score then positive
  else if Rlt_dec score (-0.5) then negative
  else neutral.

Definition wordConfidence (score : R) (length : Z) : R :=
  let wordMagnitude := Rabs score in
  Rmin 0.95
    (0.6 + Rmin 1 (wordMagnitude / Rmax 1 (sqrt (IZR length))) * 0.35).

(** *** The emoji signal and the combination (lines 69-92) *)

Definition emojiSentiment (c : Tally) : Sentiment :=
  if (posEmoji c >? negEmoji c) && (posEmoji c >? neuEmoji c) then positive
  else if (negEmoji c >? posEmoji c) && (negEmoji c >? neuEmoji c) then negative
  else neutral.

Definition emojiConfidenceBase (c : Tally) : R :=
  (0.75 + Rmin 0.2 (IZR (totalEmoji c) / 10))%R.

Definition combinedConfidence (c : Tally) (wordConfidence : R) : R :=
  Rmin 0.98 (emojiConfidenceBase c * 0.75 + wordConfidence * 0.25).

Definition detectSentiment (text : jsstring) : option Result :=
  if JSString.falsy text || JSString.falsy (JSString.trim text) then None
  else
    let c := tally text in
    let tokens := tokens text in
    let score := wordScore tokens in
    let wordSentiment := wordSentiment score in
    let wordConfidence := wordConfidence score (Z.of_nat (length tokens)) in
    if totalEmoji c >? 0 then
      let emojiSentiment := emojiSentiment c in
      let combinedConfidence := combinedConfidence c wordConfidence in
      let finalSentiment := emojiSentiment in
      if negb (Sentiment_eqb wordSentiment neutral)
         && Sentiment_eqb wordSentiment emojiSentiment
      then Some {| sentiment := finalSentiment;
                   confidence := Rmin 0.99 (combinedConfidence + 0.03) |}
      else if Z.abs (posEmoji c - negEmoji c) >=? 1
      then Some {| sentiment := finalSentiment;
                   confidence := combinedConfidence |}
      else Some {| sentiment := wordSentiment; confidence := wordConfidence |}
    else if (length tokens =? 0)%nat then None
    else Some {| sentiment := wordSentiment; confidence := wordConfidence |}.

(** ** The component around the detector

    The state of the component (lines 9-14) is threaded through its
    handlers.  Two effects are kept in the state as well: the messages
    passed to [toast.error], oldest first, and the callbacks handed to
    [setTimeout] that have not run yet, each with its delay and the value
    of [comment] its closure holds. *)

Record Component := {
  comment : jsstring;
  result : option Result;
  loading : bool;
  toasts : list string;
  timers : list (Z * jsstring)
}.

Definition initial : Component :=
  {| comment := []; result := None; loading := false;
     toasts := []; timers := [] |}.

Definition setComment (value : jsstring) (s : Component) : Component :=
  {| comment := value; result := result s; loading := loading s;
     toasts := toasts s; timers := timers s |}.

Definition setResult (r : option Result) (s : Component) : Component :=
  {| comment := comment s; result := r; loading := loading s;
     toasts := toasts s; timers := timers s |}.

Definition setLoading (b : bool) (s : Component) : Component :=
  {| comment := comment s; result := result s; loading := b;
     toasts := toasts s; timers := timers s |}.

Definition toast_error (message : string) (s : Component) : Component :=
  {| comment := comment s; result := result s; loading := loading s;
     toasts := toasts s ++ [message]; timers := timers s |}.

Definition setTimeout (delay : Z) (captured : jsstring) (s : Component) : Component :=
  {| comment := comment s; result := result s; loading := loading s;
     toasts := toasts s; timers := timers s ++ [(delay, captured)] |}.

(** Lines 95-101 and 104-109: the handler of the button, up to the call of
    [setTimeout]. *)
Definition analyzeSentiment (s : Component) : Component :=
  if JSString.falsy (JSString.trim (comment s))
  then toast_error "Please enter a comment to analyze" s
  else setTimeout 600 (comment s) (setLoading true s).

(** Lines 104-109: the callback handed to [setTimeout]; [comment] is the
    value its closure holds. *)
Definition timeout_callback (comment : jsstring) (s : Component) : Component :=
  let detected := detectSentiment comment in
  let s :=
    match detected with
    | Some d => setResult (Some d) s
    | None =>
        toast_error
          "Couldn't detect sentiment. Try a longer comment or add some context/emojis."
          s
    end in
  setLoading false s.

(** Lines 112-136: icon and colour classes of the result card. *)
Inductive IconName := SmilePlus | Meh | Frown.

Record Icon := { icon : IconName; className : string }.

Definition getSentimentIcon (result : option Result) : option Icon :=
  match result with
  | None => None
  | Some r =>
      match sentiment r with
      | positive =>
          Some {| icon := SmilePlus; className := "w-16 h-16 text-green-400" |}
      | neutral =>
          Some {| icon := Meh; className := "w-16 h-16 text-yellow-400" |}
      | negative =>
          Some {| icon := Frown; className := "w-16 h-16 text-red-400" |}
      end
  end.

Definition getSentimentColor (result : option Result) : string :=
  match result with
  | None => EmptyString
  | Some r =>
      match sentiment r with
      | positive => "from-green-500/20 to-emerald-500/20 border-green-500/30"
      | neutral => "from-yellow-500/20 to-amber-500/20 border-yellow-500/30"
      | negative => "from-red-500/20 to-rose-500/20 border-red-500/30"
      end
  end.

(** What can happen to the component: the text area reports a new value
    (line 144), the button is clicked (line 148), a pending callback
    runs. *)
Definition drop_timer (pre post : list (Z * jsstring)) (s : Component) : Component :=
  {| comment := comment s; result := result s; loading := loading s;
     toasts := toasts s; timers := pre ++ post |}.

Inductive step : Component -> Component -> Prop :=
| step_change (s : Component) (value : jsstring) :
    step s (setComment value s)
| step_click (s : Component) :
    step s (analyzeSentiment s)
| step_timeout (s : Component) (pre post : list (Z * jsstring))
    (delay : Z) (captured : jsstring) :
    timers s = pre ++ (delay, captured) :: post ->
    step s (timeout_callback captured (drop_timer pre post s)).

Inductive reachable : Component -> Prop :=
| reach_initial : reachable initial
| reach_step (s s' : Component) : reachable s -> step s s' -> reachable s'.

(** The same with the button as it is rendered, [disabled={loading}]
    (line 149): no click while [loading] holds. *)
Inductive ui_step : Component -> Component -> Prop :=
| ui_change (s : Component) (value : jsstring) :
    ui_step s (setComment value s)
| ui_click (s : Component) :
    loading s = false -> ui_step s (analyzeSentiment s)
| ui_timeout (s : Component) (pre post : list (Z * jsstring))
    (delay : Z) (captured : jsstring) :
    timers s = pre ++ (delay, captured) :: post ->
    ui_step s (timeout_callback captured (drop_timer pre post s)).

Inductive ui_reachable : Component -> Prop :=
| ui_initial : ui_reachable initial
| ui_next (s s' : Component) : ui_reachable s -> ui_step s s' -> ui_reachable s'.

(** ** Vocabulary of the properties *)

(** A string of white space only: what [trim] empties. *)
Definition blank (s : jsstring) : bool := forallb JSString.is_space s.

(** What [Array.from] yields: single code units and surrogate pairs. *)
Inductive code_point : jsstring -> Prop :=
| cp_unit (c : Z) : code_point [c]
| cp_pair (c d : Z) :
    JSString.is_high_surrogate c = true ->
    JSString.is_low_surrogate d = true ->
    code_point [c; d].

(** A set entry of two code points of the Basic Multilingual Plane. *)
Definition two_code_points (e : jsstring) : Prop :=
  exists c d : Z,
    e = [c; d] /\ JSString.is_high_surrogate c = false /\
    JSString.is_low_surrogate c = false /\
    JSString.is_high_surrogate d = false /\ JSString.is_low_surrogate d = false.

Definition emojis : list jsstring :=
  positiveEmojis ++ negativeEmojis ++ neutralEmojis.

(** A code unit that is no high surrogate and is not U+2728 is yielded on
    its own by [Array.from] and is in none of the three sets. *)
Definition plain (c : Z) : bool :=
  negb (JSString.is_high_surrogate c) && negb (c =? 0x2728).

Definition tally_nonneg (c : Tally) : Prop :=
  0 <= posEmoji c /\ 0 <= negEmoji c /\ 0 <= neuEmoji c.

(** The two signals of an input, in the words of the specification. *)
Definition lexicalLabel (text : jsstring) : Sentiment :=
  wordSentiment (wordScore (tokens text)).

Definition lexicalConfidence (text : jsstring) : R :=
  wordConfidence (wordScore (tokens text)) (Z.of_nat (length (tokens text))).

Definition dominantEmojiLabel (text : jsstring) : Sentiment :=
  emojiSentiment (tally text).

Definition combined (text : jsstring) : R :=
  combinedConfidence (tally text) (lexicalConfidence text).

(** The adjusted weight of lines 51-52, as a function of the token before
    (none at index 0). *)
Definition scaled (prev : option jsstring) (weight : R) : R :=
  let weight :=
    if match prev with Some p => JSString.has intensifiers p | None => false end
    then (weight * 1.6)%R else weight in
  let weight :=
    if match prev with Some p => JSString.has negations p | None => false end
    then (weight * -1)%R else weight in
  weight.

(** What one token adds to the score, given the token before. *)
Definition contribution (prev : option jsstring) (w : jsstring) : R :=
  if JSString.has positiveWords w then scaled prev 1
  else if JSString.has negativeWords w then scaled prev (-1)
  else 0%R.

(** The sum of the contributions; [wordScore_from] below shows that the
    loop of lines 46-60 computes it. *)
Fixpoint score_from (prev : option jsstring) (ts : list jsstring) : R :=
  match ts with
  | [] => 0%R
  | w :: ts' => (contribution prev w + score_from (Some w) ts')%R
  end.

Definition last_token (pre : list jsstring) : option jsstring :=
  hd_error (rev pre).

(** [adds_positive ts ts']: the token array [ts'] is [ts] with occurrences
    of words of the positive lexicon added, anywhere. *)
Inductive adds_positive : list jsstring -> list jsstring -> Prop :=
| adds_nil : adds_positive [] []
| adds_keep (t : jsstring) (ts ts' : list jsstring) :
    adds_positive ts ts' -> adds_positive (t :: ts) (t :: ts')
| adds_word (w : jsstring) (ts ts' : list jsstring) :
    In w positiveWords -> adds_positive ts ts' -> adds_positive ts (w :: ts').

Definition no_negation (ts : list jsstring) : bool :=
  forallb (fun t => negb (JSString.has negations t)) ts.

Definition not_negated (prev : option jsstring) : Prop :=
  match prev with
  | Some p => JSString.has negations p = false
  | None => True
  end.

(** A code unit of a word: the class [[a-z0-9'_]]. *)
Definition word_unit (c : Z) : bool :=
  ((0x61 <=? c) && (c <=? 0x7A)) || ((0x30 <=? c) && (c <=? 0x39))
  || (c =? 0x27) || (c =? 0x5F).

Definition lexicon_word (t : jsstring) : bool :=
  JSString.has positiveWords t || JSString.has negativeWords t.

Definition tally_add (c d : Tally) : Tally :=
  {| posEmoji := posEmoji c + posEmoji d;
     negEmoji := negEmoji c + negEmoji d;
     neuEmoji := neuEmoji c + neuEmoji d |}.

(** ASCII letters, and the two ways to change their case. *)
Definition ascii_upper (c : Z) : Z :=
  if (0x61 <=? c) && (c <=? 0x7A) then c - 0x20 else c.

Definition ascii_lower (c : Z) : Z :=
  if (0x41 <=? c) && (c <=? 0x5A) then c + 0x20 else c.

(** [mirrored t t']: the tokens [t] and [t'] are a positive and a negative
    word, either way round, or one token outside the two lexicons. *)
Definition mirrored (t t' : jsstring) : Prop :=
  (In t positiveWords /\ In t' negativeWords) \/
  (In t negativeWords /\ In t' positiveWords) \/
  (t = t' /\ lexicon_word t = false).

Definition flip (s : Sentiment) : Sentiment :=
  match s with
  | positive => negative
  | neutral => neutral
  | negative => positive
  end.

(** ** Proof tools *)

Ltac bool_to_prop :=
  repeat rewrite ?orb_true_iff, ?andb_true_iff, ?orb_false_iff,
    ?andb_false_iff, ?Z.eqb_eq, ?Z.eqb_neq, ?Z.leb_le, ?Z.leb_gt,
    ?Z.ltb_lt, ?Z.ltb_ge, ?Z.gtb_ltb, ?Z.geb_leb in *.

(** Membership tests on closed strings are computed. *)
Ltac eval_has :=
  repeat match goal with
  | |- context [JSString.has ?set ?w] =>
      let b := eval vm_compute in (JSString.has set w) in
      change (JSString.has set w) with b
  end;
  cbv iota.

(** Case analysis on the comparisons of real numbers left in a goal. *)
Ltac real_cases :=
  unfold Rmin, Rmax, Rabs;
  repeat match goal with
  | |- context [Rle_dec ?a ?b] => destruct (Rle_dec a b)
  | |- context [Rcase_abs ?a] => destruct (Rcase_abs a)
  | |- context [Rlt_dec ?a ?b] => destruct (Rlt_dec a b)
  | _ : context [Rle_dec ?a ?b] |- _ => destruct (Rle_dec a b)
  end;
  first [reflexivity | lra | exfalso; lra | idtac].

(** ** Strings: membership, code points, white space *)

Lemma eqb_eq (a b : jsstring) : JSString.eqb a b = true <-> a = b.
Proof.
  revert b. induction a as [|x a IH]; intros [|y b]; simpl;
    try (split; [discriminate | congruence]).
  - split; reflexivity.
  - rewrite andb_true_iff, Z.eqb_eq, IH. split.
    + intros [-> ->]. reflexivity.
    + intros H. injection H as -> ->. split; reflexivity.
Qed.

Lemma has_In (set : list jsstring) (s : jsstring) :
  JSString.has set s = true <-> In s set.
Proof.
  unfold JSString.has. rewrite existsb_exists. split.
  - intros [x [Hx E]]. apply eqb_eq in E. subst. exact Hx.
  - intros H. exists s. split; [exact H | apply eqb_eq; reflexivity].
Qed.


Lemma Array_from_code_point (s : jsstring) :
  Forall code_point (JSString.Array_from s).
Proof.
  assert (H : Forall code_point (JSString.Array_from s) /\
              forall c, Forall code_point (JSString.Array_from (c :: s))).
  { induction s as [|d s [IH1 IH2]].
    - split; [constructor|]. intros c. simpl. repeat constructor.
    - split; [apply IH2|]. intros c.
      change (JSString.Array_from (c :: d :: s)) with
        (if JSString.is_high_surrogate c && JSString.is_low_surrogate d
         then [c; d] :: JSString.Array_from s
         else [c] :: JSString.Array_from (d :: s)).
      destruct (JSString.is_high_surrogate c && JSString.is_low_surrogate d) eqn:E.
      + apply andb_true_iff in E as [E1 E2].
        constructor; [constructor; assumption | exact IH1].
      + constructor; [constructor | apply IH2]. }
  apply H.
Qed.


Lemma trimStart_nil (s : jsstring) :
  JSString.trimStart s = [] <-> blank s = true.
Proof.
  induction s as [|c s IH]; simpl.
  - split; reflexivity.
  - destruct (JSString.is_space c); simpl; [exact IH|].
    split; discriminate.
Qed.

Lemma trimStart_head (s : jsstring) :
  JSString.trimStart s = [] \/
  exists c l, JSString.trimStart s = c :: l /\ JSString.is_space c = false.
Proof.
  induction s as [|c s IH]; simpl; [left; reflexivity|].
  destruct (JSString.is_space c) eqn:E; [exact IH|].
  right. exists c, s. split; [reflexivity | exact E].
Qed.

Lemma blank_app (a b : jsstring) : blank (a ++ b) = blank a && blank b.
Proof. apply forallb_app. Qed.

Lemma blank_rev (s : jsstring) : blank (rev s) = blank s.
Proof.
  induction s as [|c s IH]; simpl; [reflexivity|].
  rewrite blank_app, IH. simpl. rewrite andb_true_r. apply andb_comm.
Qed.

Lemma trim_nil (s : jsstring) : JSString.trim s = [] <-> blank s = true.
Proof.
  unfold JSString.trim, JSString.trimEnd.
  destruct (trimStart_head s) as [E | [c [l [E Hc]]]].
  - rewrite E. simpl. rewrite <- trimStart_nil. split; intros _; [exact E | reflexivity].
  - rewrite E. split.
    + intros H. apply (f_equal (@rev Z)) in H. rewrite rev_involutive in H.
      apply trimStart_nil in H. rewrite blank_rev in H.
      simpl in H. rewrite Hc in H. discriminate.
    + intros H. apply trimStart_nil in H. rewrite E in H. discriminate.
Qed.

(** The first guard of [detectSentiment] (line 18). *)
Lemma guard_blank (text : jsstring) :
  JSString.falsy text || JSString.falsy (JSString.trim text) = blank text.
Proof.
  destruct text as [|c text]; [reflexivity|].
  cbn [JSString.falsy orb].
  destruct (blank (c :: text)) eqn:B.
  - apply trim_nil in B. rewrite B. reflexivity.
  - destruct (JSString.trim (c :: text)) eqn:E; [|reflexivity].
    apply trim_nil in E. congruence.
Qed.

(** ** The emoji pass *)


(** The one entry of the three sets that is a single code unit is U+2728. *)
Lemma single_unit_emoji (c : Z) : In [c] emojis -> c = 0x2728.
Proof.
  intros H. vm_compute in H.
  repeat (destruct H as [H | H]; [try discriminate H|]);
    [injection H as H; symmetry; exact H | contradiction].
Qed.

Lemma not_emoji_step (c : Tally) (ch : jsstring) :
  ~ In ch emojis -> tally_step c ch = c.
Proof.
  intros H. unfold tally_step.
  destruct (JSString.has positiveEmojis ch) eqn:E1;
    [apply has_In in E1; exfalso; apply H; apply in_or_app; auto|].
  destruct (JSString.has negativeEmojis ch) eqn:E2;
    [apply has_In in E2; exfalso; apply H; unfold emojis;
     apply in_or_app; right; apply in_or_app; auto|].
  destruct (JSString.has neutralEmojis ch) eqn:E3;
    [apply has_In in E3; exfalso; apply H; unfold emojis;
     apply in_or_app; right; apply in_or_app; auto|].
  reflexivity.
Qed.

(** A run of plain code units leaves the counters as they are. *)
Lemma fold_tally_plain (s : jsstring) (c : Tally) :
  forallb plain s = true ->
  fold_left tally_step (JSString.Array_from s) c = c.
Proof.
  revert c. induction s as [|x s IH]; intros c H; [reflexivity|].
  simpl in H. apply andb_true_iff in H as [Hx Hs].
  unfold plain in Hx. apply andb_true_iff in Hx as [Hh Hx].
  apply negb_true_iff in Hh. apply negb_true_iff, Z.eqb_neq in Hx.
  assert (Hstep : tally_step c [x] = c).
  { apply not_emoji_step. intros Hin. apply single_unit_emoji in Hin.
    contradiction. }
  destruct s as [|y s]; simpl.
  - exact Hstep.
  - rewrite Hh. cbn [andb fold_left]. rewrite Hstep. apply IH, Hs.
Qed.

Lemma space_plain (c : Z) : JSString.is_space c = true -> plain c = true.
Proof.
  unfold JSString.is_space, plain, JSString.is_high_surrogate. intros H.
  destruct ((0xD800 <=? c) && (c <=? 0xDBFF)) eqn:E1; [bool_to_prop; lia|].
  destruct (c =? 0x2728) eqn:E2; [bool_to_prop; lia | reflexivity].
Qed.

Lemma blank_plain (s : jsstring) : blank s = true -> forallb plain s = true.
Proof.
  unfold blank. rewrite !forallb_forall. intros H c Hc.
  apply space_plain, H, Hc.
Qed.

Lemma tally_blank (text : jsstring) :
  blank text = true ->
  tally text = {| posEmoji := 0; negEmoji := 0; neuEmoji := 0 |}.
Proof. intros H. apply fold_tally_plain, blank_plain, H. Qed.

Lemma tally_step_nonneg (c : Tally) (ch : jsstring) :
  tally_nonneg c -> tally_nonneg (tally_step c ch).
Proof.
  unfold tally_nonneg, tally_step. intros H.
  destruct (JSString.has positiveEmojis ch); [simpl; lia|].
  destruct (JSString.has negativeEmojis ch); [simpl; lia|].
  destruct (JSString.has neutralEmojis ch); [simpl; lia | exact H].
Qed.

Lemma fold_tally_nonneg (l : list jsstring) (c : Tally) :
  tally_nonneg c -> tally_nonneg (fold_left tally_step l c).
Proof.
  revert c. induction l as [|ch l IH]; intros c H; [exact H|].
  simpl. apply IH, tally_step_nonneg, H.
Qed.

Lemma tally_counts_nonneg (text : jsstring) : tally_nonneg (tally text).
Proof. apply fold_tally_nonneg. unfold tally_nonneg. simpl. lia. Qed.

(** ** The word pass on white space *)

Lemma space_lower (c : Z) :
  JSString.is_space c = true -> JSString.lower_unit c = [c].
Proof.
  unfold JSString.is_space, JSString.lower_unit. intros H.
  destruct ((0x41 <=? c) && (c <=? 0x5A)) eqn:E1; [bool_to_prop; lia|].
  destruct (c =? 0x212A) eqn:E2; [bool_to_prop; lia|].
  destruct (c =? 0x130) eqn:E3; [bool_to_prop; lia|].
  reflexivity.
Qed.

Lemma space_kept (c : Z) : JSString.is_space c = true -> kept c = true.
Proof. unfold kept. intros ->. apply orb_true_r. Qed.

Lemma normalize_blank (s : jsstring) : blank s = true -> normalize s = s.
Proof.
  unfold normalize, JSString.toLowerCase.
  induction s as [|c s IH]; intros H; [reflexivity|].
  simpl in H. apply andb_true_iff in H as [Hc Hs].
  simpl. rewrite (space_lower c Hc). simpl. rewrite (space_kept c Hc).
  f_equal. apply IH, Hs.
Qed.

Lemma split_go_blank (s : jsstring) (insep : bool) :
  blank s = true ->
  JSString.filter_Boolean (JSString.split_go insep [] s) = [].
Proof.
  revert insep. induction s as [|c s IH]; intros insep H; [reflexivity|].
  simpl in H. apply andb_true_iff in H as [Hc Hs].
  simpl. rewrite Hc. destruct insep; simpl; apply IH, Hs.
Qed.

Lemma tokens_blank (text : jsstring) : blank text = true -> tokens text = [].
Proof.
  intros H. unfold tokens. rewrite (normalize_blank _ H).
  apply split_go_blank, H.
Qed.

(** ** When the detector returns nothing *)

Lemma detectSentiment_None (text : jsstring) :
  detectSentiment text = None <->
  totalEmoji (tally text) = 0 /\ tokens text = [].
Proof.
  unfold detectSentiment. rewrite guard_blank.
  destruct (blank text) eqn:B.
  - rewrite (tally_blank _ B), (tokens_blank _ B). split; auto.
  - pose proof (tally_counts_nonneg text) as [Hp [Hn Hu]].
    cbv zeta. destruct (totalEmoji (tally text) >? 0) eqn:T.
    + assert (0 < totalEmoji (tally text)) by (bool_to_prop; lia).
      split; [|lia].
      destruct (_ && _); [discriminate|]. destruct (_ >=? _); discriminate.
    + assert (totalEmoji (tally text) = 0)
        by (unfold totalEmoji in *; bool_to_prop; lia).
      destruct (tokens text) as [|w l]; simpl; split; auto.
      * discriminate.
      * intros [_ E]. discriminate.
Qed.

(** ** The lexicon score, token by token *)

Local Open Scope R_scope.


Lemma last_cases (l : list jsstring) :
  l = [] \/ exists l' a, l = l' ++ [a].
Proof.
  destruct l as [|x l]; [left; reflexivity | right].
  destruct (@exists_last _ (x :: l)) as [l' [a E]]; [discriminate|].
  exists l', a. exact E.
Qed.

Lemma adjust_scaled (pre post : list jsstring) (weight : R) :
  adjust (pre ++ post) (length pre) weight = scaled (last_token pre) weight.
Proof.
  unfold adjust, scaled, last_token.
  destruct (last_cases pre) as [E | [pre' [p E]]].
  - subst pre. reflexivity.
  - subst pre. rewrite rev_unit. cbn [hd_error].
    rewrite length_app. cbn [length].
    replace (length pre' + 1 - 1)%nat with (length pre') by lia.
    rewrite <- app_assoc. cbn [app]. rewrite nth_middle.
    replace (0 <? length pre' + 1)%nat with true
      by (symmetry; apply Nat.ltb_lt; lia).
    reflexivity.
Qed.

Lemma score_step_contribution (pre post : list jsstring) (w : jsstring) (acc : R) :
  score_step (pre ++ w :: post) acc (length pre) =
  acc + contribution (last_token pre) w.
Proof.
  unfold score_step, contribution. rewrite nth_middle, !adjust_scaled.
  destruct (JSString.has positiveWords w); [reflexivity|].
  destruct (JSString.has negativeWords w); [reflexivity | lra].
Qed.

Lemma fold_score_from (post pre : list jsstring) (acc : R) :
  fold_left (score_step (pre ++ post)) (seq (length pre) (length post)) acc =
  acc + score_from (last_token pre) post.
Proof.
  revert pre acc. induction post as [|w post IH]; intros pre acc.
  - simpl. lra.
  - cbn [length seq fold_left score_from].
    rewrite score_step_contribution.
    replace (pre ++ w :: post) with ((pre ++ [w]) ++ post)
      by (rewrite <- app_assoc; reflexivity).
    replace (S (length pre)) with (length (pre ++ [w]))
      by (rewrite length_app; simpl; lia).
    rewrite IH. unfold last_token at 2. rewrite rev_unit. cbn [hd_error]. lra.
Qed.

(** The loop of lines 46-60 adds up the contributions, each one decided by
    a token and the token before it. *)
Lemma wordScore_from (ts : list jsstring) : wordScore ts = score_from None ts.
Proof.
  unfold wordScore. pose proof (fold_score_from ts [] 0) as H.
  cbn [app length] in H. rewrite H. change (last_token []) with (@None jsstring).
  lra.
Qed.

(** ** Evaluating the detector on a given input *)

Lemma wordSentiment_positive (score : R) :
  0.5 < score -> wordSentiment score = positive.
Proof. intros H. unfold wordSentiment. real_cases. Qed.

Lemma wordSentiment_negative (score : R) :
  score < -0.5 -> wordSentiment score = negative.
Proof. intros H. unfold wordSentiment. real_cases. Qed.

Lemma wordSentiment_neutral (score : R) :
  -0.5 <= score <= 0.5 -> wordSentiment score = neutral.
Proof. intros H. unfold wordSentiment. real_cases. Qed.

(** One token of full weight: the confidence is at its cap. *)
Lemma wordConfidence_one_token (score : R) :
  1 <= Rabs score -> wordConfidence score 1 = 0.95.
Proof.
  intros H. unfold wordConfidence. rewrite sqrt_1.
  replace (Rmax 1 1) with 1 by (unfold Rmax; destruct (Rle_dec 1 1); reflexivity).
  replace (Rabs score / 1) with (Rabs score) by field.
  rewrite (Rmin_left 1 (Rabs score) H).
  unfold Rmin. destruct (Rle_dec 0.95 (0.6 + 1 * 0.35)); lra.
Qed.

Example tokens_not_good : tokens (js "not good") = [js "not"; js "good"].
Proof. vm_compute. reflexivity. Qed.


(** ** The word sets are pairwise disjoint where the loop needs it *)

Lemma disjoint_has (A B : list jsstring) :
  forallb (fun x => negb (JSString.has B x)) A = true ->
  forall x, In x A -> JSString.has B x = false.
Proof.
  intros H x Hx. rewrite forallb_forall in H.
  apply negb_true_iff, H, Hx.
Qed.

Lemma negation_not_intensifier (n : jsstring) :
  In n negations -> JSString.has intensifiers n = false.
Proof. apply disjoint_has. vm_compute. reflexivity. Qed.

Lemma intensifier_not_negation (p : jsstring) :
  In p intensifiers -> JSString.has negations p = false.
Proof. apply disjoint_has. vm_compute. reflexivity. Qed.

Lemma negative_not_positive (w : jsstring) :
  In w negativeWords -> JSString.has positiveWords w = false.
Proof. apply disjoint_has. vm_compute. reflexivity. Qed.

Lemma positive_not_intensifier (w : jsstring) :
  In w positiveWords -> JSString.has intensifiers w = false.
Proof. apply disjoint_has. vm_compute. reflexivity. Qed.

Lemma positive_not_negation (w : jsstring) :
  In w positiveWords -> JSString.has negations w = false.
Proof. apply disjoint_has. vm_compute. reflexivity. Qed.

(** The body of the loop at an index after the first, by the kind of the
    token before. *)
Lemma score_step_after (tokens : list jsstring) (score : R) (i : nat) :
  (0 < i)%nat ->
  score_step tokens score i =
  score + contribution (Some (nth (i - 1) tokens [])) (nth i tokens []).
Proof.
  intros Hi. unfold score_step, contribution, adjust, scaled.
  replace (0 <? i)%nat with true by (symmetry; apply Nat.ltb_lt; exact Hi).
  cbn [andb].
  destruct (JSString.has positiveWords (nth i tokens [])); [reflexivity|].
  destruct (JSString.has negativeWords (nth i tokens [])); [reflexivity | lra].
Qed.

Ltac eval_score :=
  rewrite wordScore_from; cbn [score_from];
  unfold contribution, scaled; eval_has.

Example tokens_not_bad : tokens (js "not bad") = [js "not"; js "bad"].
Proof. vm_compute. reflexivity. Qed.

Example tokens_good : tokens (js "good") = [js "good"].
Proof. vm_compute. reflexivity. Qed.

Example tokens_very_good : tokens (js "very good") = [js "very"; js "good"].
Proof. vm_compute. reflexivity. Qed.

Example tokens_not_very_good :
  tokens (js "not very good") = [js "not"; js "very"; js "good"].
Proof. vm_compute. reflexivity. Qed.

(** ** Negation, intensifiers, and the one-token window *)

(** C6. A negation token right before a lexicon word flips the sign of what
    the word adds to the score: after a negation a positive word adds -1
    and a negative word adds +1.  The score of "not good" is -1, negative;
    the score of "not bad" is +1, positive. *)
Theorem C6_negation_flips_sign :
  (forall (tokens : list jsstring) (score : R) (i : nat),
      (0 < i)%nat -> In (nth (i - 1) tokens []) negations ->
      (In (nth i tokens []) positiveWords ->
       score_step tokens score i = score - 1) /\
      (In (nth i tokens []) negativeWords ->
       score_step tokens score i = score + 1)) /\
  (wordScore (tokens (js "not good")) = -1 /\
   wordScore (tokens (js "not good")) < 0) /\
  (wordScore (tokens (js "not bad")) = 1 /\
   0 < wordScore (tokens (js "not bad"))).
Proof.
  split; [|split].
  - intros tokens score i Hi Hn.
    rewrite (score_step_after tokens score i Hi).
    unfold contribution, scaled.
    rewrite (negation_not_intensifier _ Hn).
    apply has_In in Hn. rewrite Hn. split; intros Hw.
    + apply has_In in Hw. rewrite Hw. lra.
    + rewrite (negative_not_positive _ Hw).
      apply has_In in Hw. rewrite Hw. lra.
  - assert (E : wordScore (tokens (js "not good")) = -1)
      by (rewrite tokens_not_good; eval_score; lra).
    rewrite E. split; lra.
  - assert (E : wordScore (tokens (js "not bad")) = 1)
      by (rewrite tokens_not_bad; eval_score; lra).
    rewrite E. split; lra.
Qed.

(** C7. An intensifier token right before a lexicon word multiplies what
    the word adds by 1.6 and keeps its sign: +1.6 for a positive word, -1.6
    for a negative one.  The score of "very good" is 1.6, strictly above
    the score 1 of "good", which is positive. *)
Theorem C7_intensifier_scales :
  (forall (tokens : list jsstring) (score : R) (i : nat),
      (0 < i)%nat -> In (nth (i - 1) tokens []) intensifiers ->
      (In (nth i tokens []) positiveWords ->
       score_step tokens score i = score + 1 * 1.6) /\
      (In (nth i tokens []) negativeWords ->
       score_step tokens score i = score + -1 * 1.6)) /\
  wordScore (tokens (js "good")) = 1 /\
  wordScore (tokens (js "very good")) = 1.6 /\
  0 < wordScore (tokens (js "good")) < wordScore (tokens (js "very good")).
Proof.
  assert (E1 : wordScore (tokens (js "good")) = 1)
    by (rewrite tokens_good; eval_score; lra).
  assert (E2 : wordScore (tokens (js "very good")) = 1.6)
    by (rewrite tokens_very_good; eval_score; lra).
  split; [|rewrite E1, E2; repeat split; lra].
  intros tokens score i Hi Hp.
  rewrite (score_step_after tokens score i Hi).
  unfold contribution, scaled.
  rewrite (intensifier_not_negation _ Hp).
  apply has_In in Hp. rewrite Hp. split; intros Hw.
  - apply has_In in Hw. rewrite Hw. lra.
  - rewrite (negative_not_positive _ Hw).
    apply has_In in Hw. rewrite Hw. lra.
Qed.

(** C8. The negation check and the intensifier check read nothing but the
    one token right before the scoring token: two token arrays that agree
    at [i - 1] and at [i] get the same addition at [i].  In "not very good"
    both checks at "good" read "very": the weight is scaled by 1.6 and
    the negation "not" is not applied; the score is +1.6 and the label of
    the words is positive. *)
Theorem C8_single_token_window :
  (forall (ts1 ts2 : list jsstring) (score : R) (i : nat),
      nth i ts1 [] = nth i ts2 [] ->
      nth (i - 1) ts1 [] = nth (i - 1) ts2 [] ->
      score_step ts1 score i = score_step ts2 score i) /\
  tokens (js "not very good") = [js "not"; js "very"; js "good"] /\
  (forall score : R,
      score_step (tokens (js "not very good")) score 2 = score + 1 * 1.6) /\
  wordScore (tokens (js "not very good")) = 1.6 /\
  wordSentiment (wordScore (tokens (js "not very good"))) = positive.
Proof.
  assert (E : wordScore (tokens (js "not very good")) = 1.6)
    by (rewrite tokens_not_very_good; eval_score; lra).
  split; [|split; [exact tokens_not_very_good | split; [|split]]].
  - intros ts1 ts2 score i Hi Hp. unfold score_step, adjust.
    rewrite Hi, Hp. reflexivity.
  - intros score. rewrite tokens_not_very_good.
    rewrite score_step_after by lia. cbn [nth Nat.sub].
    unfold contribution, scaled. eval_has. lra.
  - exact E.
  - rewrite E. apply wordSentiment_positive. lra.
Qed.

(** ** Bounds on the confidences *)

Lemma wordConfidence_bounds (score : R) (n : Z) :
  0.6 <= wordConfidence score n <= 0.95.
Proof.
  unfold wordConfidence. cbv zeta. split; [|apply Rmin_l].
  assert (Hd : 0 < Rmax 1 (sqrt (IZR n))).
  { apply Rlt_le_trans with 1; [lra | apply Rmax_l]. }
  assert (Hq : 0 <= Rabs score / Rmax 1 (sqrt (IZR n))).
  { unfold Rdiv. apply Rmult_le_pos; [apply Rabs_pos|].
    left. apply Rinv_0_lt_compat, Hd. }
  assert (Hm : 0 <= Rmin 1 (Rabs score / Rmax 1 (sqrt (IZR n)))).
  { apply Rmin_glb; [lra | exact Hq]. }
  apply Rmin_glb; lra.
Qed.

Lemma emojiConfidenceBase_bounds (c : Tally) :
  (0 <= totalEmoji c)%Z -> 0.75 <= emojiConfidenceBase c <= 0.95.
Proof.
  intros H. unfold emojiConfidenceBase.
  assert (H0 : 0 <= IZR (totalEmoji c)) by (apply IZR_le in H; exact H).
  assert (Hm : 0 <= Rmin 0.2 (IZR (totalEmoji c) / 10)).
  { apply Rmin_glb; lra. }
  pose proof (Rmin_l 0.2 (IZR (totalEmoji c) / 10)). lra.
Qed.

Lemma combinedConfidence_bounds (c : Tally) (wc : R) :
  (0 <= totalEmoji c)%Z -> 0.6 <= wc <= 0.95 ->
  0.7125 <= combinedConfidence c wc <= 0.98.
Proof.
  intros H Hw. unfold combinedConfidence.
  pose proof (emojiConfidenceBase_bounds c H).
  split; [apply Rmin_glb; lra | apply Rmin_l].
Qed.

Lemma totalEmoji_nonneg (text : jsstring) : (0 <= totalEmoji (tally text))%Z.
Proof.
  pose proof (tally_counts_nonneg text) as [Hp [Hn Hu]].
  unfold totalEmoji. lia.
Qed.

(** ** The branches of the combination *)

Lemma Sentiment_eqb_eq (a b : Sentiment) : Sentiment_eqb a b = true <-> a = b.
Proof. destruct a, b; simpl; split; congruence. Qed.

(** An input that counts an emoji is not blank. *)
Lemma emoji_not_blank (text : jsstring) :
  (0 < totalEmoji (tally text))%Z -> blank text = false.
Proof.
  intros H. destruct (blank text) eqn:B; [|reflexivity].
  rewrite (tally_blank _ B) in H. unfold totalEmoji in H. simpl in H. lia.
Qed.

Section Branches.

Variable text : jsstring.

Let c := tally text.
Let ws := wordSentiment (wordScore (tokens text)).
Let wc := wordConfidence (wordScore (tokens text)) (Z.of_nat (length (tokens text))).
Let es := emojiSentiment c.
Let cc := combinedConfidence c wc.

(** Lines 79-81. *)
Lemma branch_agree :
  (0 < totalEmoji c)%Z -> ws <> neutral -> ws = es ->
  detectSentiment text =
  Some {| sentiment := es; confidence := Rmin 0.99 (cc + 0.03) |}.
Proof.
  intros Ht Hn He. unfold detectSentiment.
  rewrite guard_blank, (emoji_not_blank text Ht). cbv zeta.
  fold c ws wc es cc.
  replace (totalEmoji c >? 0)%Z with true by (symmetry; bool_to_prop; lia).
  replace (Sentiment_eqb ws es) with true
    by (symmetry; apply Sentiment_eqb_eq; exact He).
  destruct (Sentiment_eqb ws neutral) eqn:E;
    [apply Sentiment_eqb_eq in E; contradiction | reflexivity].
Qed.

Lemma not_agree_test :
  ws = neutral \/ ws <> es ->
  negb (Sentiment_eqb ws neutral) && Sentiment_eqb ws es = false.
Proof.
  intros [H | H].
  - rewrite H. reflexivity.
  - destruct (Sentiment_eqb ws es) eqn:E;
      [apply Sentiment_eqb_eq in E; contradiction | apply andb_false_r].
Qed.

(** Lines 83-85. *)
Lemma branch_emoji :
  (0 < totalEmoji c)%Z -> ws = neutral \/ ws <> es ->
  (1 <= Z.abs (posEmoji c - negEmoji c))%Z ->
  detectSentiment text = Some {| sentiment := es; confidence := cc |}.
Proof.
  intros Ht Hd Ha. unfold detectSentiment.
  rewrite guard_blank, (emoji_not_blank text Ht). cbv zeta.
  fold c ws wc es cc.
  replace (totalEmoji c >? 0)%Z with true by (symmetry; bool_to_prop; lia).
  rewrite (not_agree_test Hd).
  replace (Z.abs (posEmoji c - negEmoji c) >=? 1)%Z with true
    by (symmetry; bool_to_prop; lia).
  reflexivity.
Qed.

(** Line 87. *)
Lemma branch_fallback :
  (0 < totalEmoji c)%Z -> posEmoji c = negEmoji c ->
  detectSentiment text = Some {| sentiment := ws; confidence := wc |}.
Proof.
  intros Ht He. unfold detectSentiment.
  rewrite guard_blank, (emoji_not_blank text Ht). cbv zeta.
  fold c ws wc es cc.
  replace (totalEmoji c >? 0)%Z with true by (symmetry; bool_to_prop; lia).
  assert (Hes : es = neutral).
  { unfold es, emojiSentiment. rewrite He, !Z.gtb_ltb, Z.ltb_irrefl.
    reflexivity. }
  rewrite Hes.
  replace (negb (Sentiment_eqb ws neutral) && Sentiment_eqb ws neutral)
    with false by (destruct (Sentiment_eqb ws neutral); reflexivity).
  replace (Z.abs (posEmoji c - negEmoji c) >=? 1)%Z with false
    by (symmetry; rewrite He, Z.sub_diag; reflexivity).
  reflexivity.
Qed.

(** Lines 91-92. *)
Lemma branch_words :
  blank text = false -> totalEmoji c = 0%Z -> tokens text <> [] ->
  detectSentiment text = Some {| sentiment := ws; confidence := wc |}.
Proof.
  intros Hb Ht Hk. unfold detectSentiment.
  rewrite guard_blank, Hb. cbv zeta. fold c ws wc.
  rewrite Ht. cbn [Z.gtb Z.compare].
  destruct (tokens text); [contradiction | reflexivity].
Qed.

End Branches.


(** ** Confidence ranges *)

(** C2. Whenever the detector returns a result, its confidence is in
    [0, 0.99]; when no emoji was counted, the result comes from the words
    alone and its confidence is in [0.6, 0.95]. *)
Theorem C2_confidence_ranges (text : jsstring) (r : Result) :
  detectSentiment text = Some r ->
  0 <= confidence r <= 0.99 /\
  (totalEmoji (tally text) = 0%Z -> 0.6 <= confidence r <= 0.95).
Proof.
  unfold detectSentiment.
  destruct (JSString.falsy text || JSString.falsy (JSString.trim text));
    [discriminate|].
  cbv zeta.
  pose proof (wordConfidence_bounds (wordScore (tokens text))
                (Z.of_nat (length (tokens text)))) as Hw.
  pose proof (combinedConfidence_bounds (tally text) _
                (totalEmoji_nonneg text) Hw) as Hc.
  destruct (totalEmoji (tally text) >? 0)%Z eqn:T.
  - assert (Hpos : (0 < totalEmoji (tally text))%Z) by (bool_to_prop; lia).
    destruct (_ && _).
    + intros E. injection E as <-. cbn [confidence]. split; [|lia].
      split; [apply Rmin_glb; lra | apply Rmin_l].
    + destruct (_ >=? _)%Z; intros E; injection E as <-; cbn [confidence];
        (split; [lra | lia]).
  - destruct (length (tokens text) =? 0)%nat; [discriminate|].
    intros E. injection E as <-. cbn [confidence]. split; [lra | intros _; lra].
Qed.

Example tokens_terrible_tie : tokens (js "😊 😢 terrible") = [js "terrible"].
Proof. vm_compute. reflexivity. Qed.

Example tally_terrible_tie :
  tally (js "😊 😢 terrible") = {| posEmoji := 1; negEmoji := 1; neuEmoji := 0 |}.
Proof. vm_compute. reflexivity. Qed.

Example tokens_great : tokens (js "😊 great") = [js "great"].
Proof. vm_compute. reflexivity. Qed.

Example tally_great :
  tally (js "😊 great") = {| posEmoji := 1; negEmoji := 0; neuEmoji := 0 |}.
Proof. vm_compute. reflexivity. Qed.

Example tokens_terrible_3 : tokens (js "😊😊😊 terrible") = [js "terrible"].
Proof. vm_compute. reflexivity. Qed.

Example tally_terrible_3 :
  tally (js "😊😊😊 terrible") = {| posEmoji := 3; negEmoji := 0; neuEmoji := 0 |}.
Proof. vm_compute. reflexivity. Qed.

Example score_terrible : wordScore [js "terrible"] = -1.
Proof. eval_score. lra. Qed.

Example score_great : wordScore [js "great"] = 1.
Proof. eval_score. lra. Qed.

Example detect_good :
  detectSentiment (js "good") = Some {| sentiment := positive; confidence := 0.95 |}.
Proof.
  rewrite branch_words; try (vm_compute; congruence).
  rewrite tokens_good. replace (wordScore [js "good"]) with 1 by (eval_score; lra).
  rewrite wordSentiment_positive by lra.
  cbn [length Z.of_nat Pos.of_succ_nat].
  rewrite wordConfidence_one_token; [reflexivity|].
  rewrite Rabs_R1. lra.
Qed.

Lemma C2_confidence_ranges_witness :
  detectSentiment (js "good")
  = Some {| sentiment := positive; confidence := 0.95 |} /\
  0 <= 0.95 <= 0.99 /\
  (totalEmoji (tally (js "good")) = 0%Z -> 0.6 <= 0.95 <= 0.95).
Proof.
  split; [exact detect_good|].
  exact (C2_confidence_ranges (js "good")
           {| sentiment := positive; confidence := 0.95 |} detect_good).
Defined.

(** ** The combination of the two signals *)

(** C3. With emoji counted, as many positive as negative ones, and a label
    of the words that is neutral or differs from the dominant emoji label,
    the detector returns the label of the words with the confidence of the
    words, not the combined confidence. *)
Theorem C3_tie_falls_back_to_words (text : jsstring) :
  (0 < totalEmoji (tally text))%Z ->
  posEmoji (tally text) = negEmoji (tally text) ->
  lexicalLabel text = neutral \/ lexicalLabel text <> dominantEmojiLabel text ->
  detectSentiment text =
  Some {| sentiment := lexicalLabel text; confidence := lexicalConfidence text |}.
Proof.
  intros Ht He _. exact (branch_fallback text Ht He).
Qed.

Example lexical_terrible_tie :
  lexicalLabel (js "😊 😢 terrible") = negative /\
  lexicalConfidence (js "😊 😢 terrible") = 0.95.
Proof.
  unfold lexicalLabel, lexicalConfidence.
  rewrite tokens_terrible_tie, score_terrible. split.
  - apply wordSentiment_negative. lra.
  - apply wordConfidence_one_token. real_cases.
Qed.

(** In particular for "😊 😢 terrible": one positive and one negative
    emoji, the words say negative, and the result is negative with the
    confidence of the words. *)
Lemma C3_tie_falls_back_to_words_witness :
  tally (js "😊 😢 terrible")
  = {| posEmoji := 1; negEmoji := 1; neuEmoji := 0 |} /\
  lexicalLabel (js "😊 😢 terrible") = negative /\
  dominantEmojiLabel (js "😊 😢 terrible") = neutral /\
  detectSentiment (js "😊 😢 terrible") =
  Some {| sentiment := negative;
          confidence := lexicalConfidence (js "😊 😢 terrible") |}.
Proof.
  destruct lexical_terrible_tie as [Hl _].
  assert (Hd : dominantEmojiLabel (js "😊 😢 terrible") = neutral)
    by (unfold dominantEmojiLabel; rewrite tally_terrible_tie; reflexivity).
  split; [exact tally_terrible_tie|]. split; [exact Hl|]. split; [exact Hd|].
  rewrite <- Hl at 1.
  apply (C3_tie_falls_back_to_words (js "😊 😢 terrible")).
  - rewrite tally_terrible_tie. reflexivity.
  - rewrite tally_terrible_tie. reflexivity.
  - right. rewrite Hl, Hd. discriminate.
Defined.

(** On a tie the confidence returned is the one of the words also where
    the combined confidence is another number: for "😊 😢 hello" the words
    give neutral with 0.6, the combined confidence is 0.8625, and 0.6 is
    returned.  (For "😊 😢 terrible" both numbers are 0.95.) *)
Example tie_confidence_hello :
  detectSentiment (js "😊 😢 hello")
  = Some {| sentiment := neutral; confidence := 0.6 |} /\
  combined (js "😊 😢 hello") = 0.8625 /\
  combined (js "😊 😢 terrible") = lexicalConfidence (js "😊 😢 terrible").
Proof.
  assert (Hk : tokens (js "😊 😢 hello") = [js "hello"])
    by (vm_compute; reflexivity).
  assert (Ht : tally (js "😊 😢 hello")
               = {| posEmoji := 1; negEmoji := 1; neuEmoji := 0 |})
    by (vm_compute; reflexivity).
  assert (Hs : wordScore [js "hello"] = 0) by (eval_score; lra).
  assert (Hc : lexicalConfidence (js "😊 😢 hello") = 0.6).
  { unfold lexicalConfidence, wordConfidence. rewrite Hk, Hs.
    cbn [length Z.of_nat Pos.of_succ_nat]. rewrite sqrt_1, Rabs_R0.
    real_cases. }
  split; [|split].
  - rewrite (branch_fallback (js "😊 😢 hello"));
      [| rewrite Ht; reflexivity | rewrite Ht; reflexivity].
    fold (lexicalConfidence (js "😊 😢 hello")). rewrite Hc, Hk, Hs.
    rewrite wordSentiment_neutral by lra. reflexivity.
  - unfold combined, combinedConfidence, emojiConfidenceBase.
    rewrite Hc, Ht.
    change (totalEmoji {| posEmoji := 1; negEmoji := 1; neuEmoji := 0 |})
      with 2%Z.
    real_cases.
  - unfold combined, combinedConfidence, emojiConfidenceBase.
    destruct lexical_terrible_tie as [_ ->]. rewrite tally_terrible_tie.
    change (totalEmoji {| posEmoji := 1; negEmoji := 1; neuEmoji := 0 |})
      with 2%Z.
    real_cases.
Qed.

(** C4. With emoji counted and a non-neutral label of the words that
    equals the dominant emoji label, the detector returns that label with
    confidence min(0.99, combined + 0.03), which is strictly above the
    combined confidence. *)
Theorem C4_agreement_bonus (text : jsstring) :
  (0 < totalEmoji (tally text))%Z ->
  lexicalLabel text <> neutral ->
  lexicalLabel text = dominantEmojiLabel text ->
  detectSentiment text =
  Some {| sentiment := dominantEmojiLabel text;
          confidence := Rmin 0.99 (combined text + 0.03) |} /\
  combined text < Rmin 0.99 (combined text + 0.03).
Proof.
  intros Ht Hn He. split; [exact (branch_agree text Ht Hn He)|].
  pose proof (combinedConfidence_bounds (tally text) (lexicalConfidence text)
                (totalEmoji_nonneg text)
                (wordConfidence_bounds _ _)) as Hc.
  fold (combined text) in Hc.
  apply Rmin_glb_lt; lra.
Qed.

Example lexical_great :
  lexicalLabel (js "😊 great") = positive /\
  lexicalConfidence (js "😊 great") = 0.95.
Proof.
  unfold lexicalLabel, lexicalConfidence.
  rewrite tokens_great, score_great. split.
  - apply wordSentiment_positive. lra.
  - apply wordConfidence_one_token. real_cases.
Qed.

Example combined_great : combined (js "😊 great") = 0.875.
Proof.
  unfold combined, combinedConfidence, emojiConfidenceBase.
  destruct lexical_great as [_ ->]. rewrite tally_great.
  change (totalEmoji {| posEmoji := 1; negEmoji := 0; neuEmoji := 0 |})
    with 1%Z.
  real_cases.
Qed.

(** In particular for "😊 great": positive, with the combined confidence
    0.875 raised to 0.905. *)
Lemma C4_agreement_bonus_witness :
  lexicalLabel (js "😊 great") = positive /\
  dominantEmojiLabel (js "😊 great") = positive /\
  detectSentiment (js "😊 great") =
  Some {| sentiment := positive;
          confidence := Rmin 0.99 (combined (js "😊 great") + 0.03) |} /\
  combined (js "😊 great") < Rmin 0.99 (combined (js "😊 great") + 0.03).
Proof.
  destruct lexical_great as [Hl _].
  assert (Hd : dominantEmojiLabel (js "😊 great") = positive)
    by (unfold dominantEmojiLabel; rewrite tally_great; reflexivity).
  split; [exact Hl|]. split; [exact Hd|].
  rewrite <- Hd at 1.
  apply (C4_agreement_bonus (js "😊 great")).
  - rewrite tally_great. reflexivity.
  - rewrite Hl. discriminate.
  - rewrite Hl, Hd. reflexivity.
Defined.

(** C5. With emoji counted, a label of the words that differs from the
    dominant emoji label, and positive and negative emoji counts at least
    1 apart, the detector returns the dominant emoji label with the
    combined confidence. *)
Theorem C5_emoji_dominance (text : jsstring) :
  (0 < totalEmoji (tally text))%Z ->
  lexicalLabel text <> dominantEmojiLabel text ->
  (1 <= Z.abs (posEmoji (tally text) - negEmoji (tally text)))%Z ->
  detectSentiment text =
  Some {| sentiment := dominantEmojiLabel text; confidence := combined text |}.
Proof.
  intros Ht Hd Ha. exact (branch_emoji text Ht (or_intror Hd) Ha).
Qed.

Example lexical_terrible_3 :
  lexicalLabel (js "😊😊😊 terrible") = negative.
Proof.
  unfold lexicalLabel. rewrite tokens_terrible_3, score_terrible.
  apply wordSentiment_negative. lra.
Qed.

(** In particular for "😊😊😊 terrible": three positive emoji against a
    negative word give positive. *)
Lemma C5_emoji_dominance_witness :
  lexicalLabel (js "😊😊😊 terrible") = negative /\
  tally (js "😊😊😊 terrible")
  = {| posEmoji := 3; negEmoji := 0; neuEmoji := 0 |} /\
  detectSentiment (js "😊😊😊 terrible") =
  Some {| sentiment := positive;
          confidence := combined (js "😊😊😊 terrible") |}.
Proof.
  assert (Hd : dominantEmojiLabel (js "😊😊😊 terrible") = positive)
    by (unfold dominantEmojiLabel; rewrite tally_terrible_3; reflexivity).
  split; [exact lexical_terrible_3|]. split; [exact tally_terrible_3|].
  rewrite <- Hd at 1.
  apply (C5_emoji_dominance (js "😊😊😊 terrible")).
  - rewrite tally_terrible_3. reflexivity.
  - rewrite lexical_terrible_3, Hd. discriminate.
  - rewrite tally_terrible_3. cbn. lia.
Defined.

(** ** More positive words, no lower score *)


Lemma scaled_not_negated (prev : option jsstring) (weight : R) :
  not_negated prev ->
  scaled prev weight = weight \/ scaled prev weight = weight * 1.6.
Proof.
  unfold scaled, not_negated. destruct prev as [p|].
  - intros ->. destruct (JSString.has intensifiers p); auto.
  - auto.
Qed.

Lemma scaled_after_positive (w : jsstring) (weight : R) :
  In w positiveWords -> scaled (Some w) weight = weight.
Proof.
  intros H. unfold scaled.
  rewrite (positive_not_intensifier w H), (positive_not_negation w H).
  reflexivity.
Qed.

(** A positive word after a token that is no negation adds 1 or 1.6. *)
Lemma contribution_positive (prev : option jsstring) (w : jsstring) :
  In w positiveWords -> not_negated prev ->
  contribution prev w = scaled prev 1 /\ 1 <= scaled prev 1.
Proof.
  intros Hw Hp. unfold contribution.
  apply has_In in Hw. rewrite Hw. split; [reflexivity|].
  destruct (scaled_not_negated prev 1 Hp) as [-> | ->]; lra.
Qed.

(** Putting the positive word [w] between [prev] and the tokens [ts]. *)
Lemma score_from_insert (prev : option jsstring) (w : jsstring) (ts : list jsstring) :
  In w positiveWords -> not_negated prev ->
  score_from prev ts <= contribution prev w + score_from (Some w) ts.
Proof.
  intros Hw Hp.
  destruct (contribution_positive prev w Hw Hp) as [Ew H1].
  destruct ts as [|x ts]; cbn [score_from]; [lra|].
  enough (contribution prev x <= contribution prev w + contribution (Some w) x)
    by lra.
  rewrite Ew. unfold contribution.
  rewrite !(scaled_after_positive w _ Hw).
  destruct (JSString.has positiveWords x).
  - lra.
  - destruct (JSString.has negativeWords x); [|lra].
    destruct (scaled_not_negated prev 1 Hp) as [E1 | E1];
      destruct (scaled_not_negated prev (-1) Hp) as [E2 | E2];
      rewrite E1, E2; lra.
Qed.

Lemma score_from_adds (ts ts' : list jsstring) :
  adds_positive ts ts' -> no_negation ts = true ->
  forall prev, not_negated prev -> score_from prev ts <= score_from prev ts'.
Proof.
  induction 1 as [| t ts ts' _ IH | w ts ts' Hw _ IH]; intros Hn prev Hp.
  - lra.
  - simpl in Hn. apply andb_true_iff in Hn as [Ht Hn].
    apply negb_true_iff in Ht. cbn [score_from].
    pose proof (IH Hn (Some t) Ht). lra.
  - cbn [score_from].
    pose proof (score_from_insert prev w ts Hw Hp).
    assert (Hsw : not_negated (Some w)) by (apply positive_not_negation, Hw).
    pose proof (IH Hn (Some w) Hsw). lra.
Qed.

(** *** Adding a word to a text

    A word put into a text at a space, with a space after it, is a token
    added to the token array, and the emoji counters stay as they were. *)

Lemma Array_from_break (x : Z) (b : jsstring) :
  JSString.is_high_surrogate x = false ->
  JSString.is_low_surrogate x = false ->
  forall a : jsstring,
    JSString.Array_from (a ++ x :: b) =
    JSString.Array_from a ++ [x] :: JSString.Array_from b.
Proof.
  intros Hh Hl.
  assert (H0 : JSString.Array_from (x :: b) = [x] :: JSString.Array_from b).
  { destruct b as [|d b]; simpl; [reflexivity | rewrite Hh; reflexivity]. }
  intros a.
  assert (H : JSString.Array_from (a ++ x :: b) =
              JSString.Array_from a ++ [x] :: JSString.Array_from b /\
              forall c, JSString.Array_from (c :: a ++ x :: b) =
                        JSString.Array_from (c :: a) ++ [x] :: JSString.Array_from b).
  { induction a as [|d a [IH1 IH2]].
    - split; [exact H0|]. intros c. cbn [app].
      change (JSString.Array_from (c :: x :: b)) with
        (if JSString.is_high_surrogate c && JSString.is_low_surrogate x
         then [c; x] :: JSString.Array_from b
         else [c] :: JSString.Array_from (x :: b)).
      rewrite Hl, andb_false_r, H0. reflexivity.
    - split; [apply IH2|]. intros c. cbn [app].
      change (JSString.Array_from (c :: d :: a ++ x :: b)) with
        (if JSString.is_high_surrogate c && JSString.is_low_surrogate d
         then [c; d] :: JSString.Array_from (a ++ x :: b)
         else [c] :: JSString.Array_from (d :: a ++ x :: b)).
      change (JSString.Array_from (c :: d :: a)) with
        (if JSString.is_high_surrogate c && JSString.is_low_surrogate d
         then [c; d] :: JSString.Array_from a
         else [c] :: JSString.Array_from (d :: a)).
      destruct (JSString.is_high_surrogate c && JSString.is_low_surrogate d);
        [rewrite IH1 | rewrite IH2]; reflexivity. }
  apply H.
Qed.

Lemma tally_app_space (a b : jsstring) :
  tally (a ++ 0x20%Z :: b) =
  fold_left tally_step (JSString.Array_from b) (tally a).
Proof.
  unfold tally. rewrite Array_from_break by reflexivity.
  rewrite fold_left_app. cbn [fold_left].
  rewrite (not_emoji_step _ [0x20%Z]); [reflexivity|].
  intros H. apply single_unit_emoji in H. discriminate H.
Qed.

Lemma tally_insert_word (a b w : jsstring) :
  forallb plain w = true ->
  tally (a ++ 0x20%Z :: w ++ 0x20%Z :: b) = tally (a ++ 0x20%Z :: b).
Proof.
  intros Hw. rewrite !tally_app_space.
  rewrite Array_from_break by reflexivity.
  rewrite fold_left_app, (fold_tally_plain w _ Hw). cbn [fold_left].
  rewrite (not_emoji_step _ [0x20%Z]); [reflexivity|].
  intros H. apply single_unit_emoji in H. discriminate H.
Qed.

Lemma split_go_insep (s : jsstring) :
  JSString.filter_Boolean (JSString.split_go true [] s) =
  JSString.filter_Boolean (JSString.split_go false [] s).
Proof.
  destruct s as [|c s]; [reflexivity|].
  simpl. destruct (JSString.is_space c); reflexivity.
Qed.

Lemma split_go_app_space (x : Z) (b a : jsstring) (insep : bool) (cur : jsstring) :
  JSString.is_space x = true -> (insep = true -> cur = []) ->
  JSString.filter_Boolean (JSString.split_go insep cur (a ++ x :: b)) =
  JSString.filter_Boolean (JSString.split_go insep cur a) ++
  JSString.filter_Boolean (JSString.split_go false [] b).
Proof.
  intros Hx. revert insep cur. induction a as [|c a IH]; intros insep cur Hc.
  - cbn [app JSString.split_go]. rewrite Hx, <- split_go_insep.
    destruct insep.
    + rewrite (Hc eq_refl). reflexivity.
    + unfold JSString.filter_Boolean. cbn [filter].
      destruct (negb (JSString.falsy cur)); reflexivity.
  - cbn [app JSString.split_go]. destruct (JSString.is_space c).
    + destruct insep.
      * apply IH. reflexivity.
      * unfold JSString.filter_Boolean in *. cbn [filter].
        rewrite (IH true [] (fun _ => eq_refl)).
        destruct (negb (JSString.falsy cur)); reflexivity.
    + apply IH. discriminate.
Qed.

Lemma normalize_app (a b : jsstring) :
  normalize (a ++ b) = normalize a ++ normalize b.
Proof.
  unfold normalize, JSString.toLowerCase.
  rewrite flat_map_app, map_app. reflexivity.
Qed.

Lemma tokens_app_space (a b : jsstring) :
  tokens (a ++ 0x20%Z :: b) = tokens a ++ tokens b.
Proof.
  unfold tokens, JSString.split_ws.
  rewrite normalize_app.
  change (normalize (0x20%Z :: b)) with (0x20%Z :: normalize b).
  apply split_go_app_space; [reflexivity | discriminate].
Qed.

Lemma positive_word_token (w : jsstring) :
  In w positiveWords -> tokens w = [w] /\ forallb plain w = true.
Proof.
  revert w. apply Forall_forall.
  unfold positiveWords. cbn [map].
  repeat (constructor; [split; vm_compute; reflexivity|]). constructor.
Qed.

Lemma adds_refl (ts : list jsstring) : adds_positive ts ts.
Proof. induction ts; constructor; assumption. Qed.

Lemma adds_insert (a b : list jsstring) (w : jsstring) :
  In w positiveWords -> adds_positive (a ++ b) (a ++ w :: b).
Proof.
  intros Hw. induction a as [|t a IH]; cbn [app].
  - apply adds_word; [exact Hw | apply adds_refl].
  - apply adds_keep, IH.
Qed.

(** The positive word [w] put at a space of a text that has no negation
    token: the counters of the emoji pass are the same, the token array
    gains [w], and the score of the words is not lower. *)
Lemma add_word_to_text (a b w : jsstring) :
  In w positiveWords ->
  no_negation (tokens (a ++ 0x20%Z :: b)) = true ->
  tally (a ++ 0x20%Z :: w ++ 0x20%Z :: b) = tally (a ++ 0x20%Z :: b) /\
  tokens (a ++ 0x20%Z :: w ++ 0x20%Z :: b) = tokens a ++ w :: tokens b /\
  wordScore (tokens (a ++ 0x20%Z :: b))
  <= wordScore (tokens (a ++ 0x20%Z :: w ++ 0x20%Z :: b)).
Proof.
  intros Hw Hn. destruct (positive_word_token w Hw) as [Hk Hp].
  assert (E : tokens (a ++ 0x20%Z :: w ++ 0x20%Z :: b) = tokens a ++ w :: tokens b).
  { rewrite tokens_app_space, tokens_app_space, Hk. reflexivity. }
  split; [apply tally_insert_word, Hp|]. split; [exact E|].
  rewrite E. rewrite tokens_app_space in *. rewrite !wordScore_from.
  apply score_from_adds; [apply adds_insert, Hw | exact Hn | exact I].
Qed.

(** C9. Adding occurrences of positive-lexicon words to a token array that
    holds no negation token never lowers the score of the words.  (The
    emoji of the input take no part in the score.) *)
Theorem C9_positive_words_monotone (ts ts' : list jsstring) :
  no_negation ts = true -> adds_positive ts ts' ->
  wordScore ts <= wordScore ts'.
Proof.
  intros Hn Ha. rewrite !wordScore_from.
  apply (score_from_adds ts ts' Ha Hn None). exact I.
Qed.

Example tokens_very_bad : tokens (js "very bad 😊") = [js "very"; js "bad"].
Proof. vm_compute. reflexivity. Qed.

Example tokens_very_good_bad :
  tokens (js "very good bad 😊") = [js "very"; js "good"; js "bad"].
Proof. vm_compute. reflexivity. Qed.

Example good_is_positive : In (js "good") positiveWords.
Proof. apply has_In. vm_compute. reflexivity. Qed.

Lemma C9_positive_words_monotone_witness :
  tally (js "very bad 😊") = tally (js "very good bad 😊") /\
  no_negation (tokens (js "very bad 😊")) = true /\
  adds_positive (tokens (js "very bad 😊")) (tokens (js "very good bad 😊")) /\
  wordScore (tokens (js "very bad 😊"))
  <= wordScore (tokens (js "very good bad 😊")).
Proof.
  assert (Hn : no_negation (tokens (js "very bad 😊")) = true)
    by (vm_compute; reflexivity).
  assert (Ha : adds_positive (tokens (js "very bad 😊"))
                 (tokens (js "very good bad 😊"))).
  { rewrite tokens_very_bad, tokens_very_good_bad.
    apply adds_keep, adds_word; [exact good_is_positive|].
    apply adds_keep, adds_nil. }
  split; [vm_compute; reflexivity|]. split; [exact Hn|]. split; [exact Ha|].
  exact (C9_positive_words_monotone _ _ Hn Ha).
Defined.

(** ** Set entries of two code points *)

Local Open Scope Z_scope.


(** The word pass finds no token exactly when the normalized text is white
    space only. *)
Lemma split_go_word (s : jsstring) (cur : jsstring) :
  cur <> [] -> JSString.filter_Boolean (JSString.split_go false cur s) <> [].
Proof.
  revert cur. induction s as [|c s IH]; intros cur H.
  - simpl. destruct cur; [contradiction | discriminate].
  - simpl. destruct (JSString.is_space c).
    + simpl. destruct cur; [contradiction | discriminate].
    + apply IH. destruct cur; discriminate.
Qed.

Lemma split_go_not_blank (s : jsstring) (insep : bool) :
  blank s = false ->
  JSString.filter_Boolean (JSString.split_go insep [] s) <> [].
Proof.
  revert insep. induction s as [|c s IH]; intros insep H; [discriminate|].
  simpl in H. simpl. destruct (JSString.is_space c).
  - simpl in H. destruct insep; simpl; apply IH, H.
  - apply split_go_word. discriminate.
Qed.

Lemma tokens_nil_iff (text : jsstring) :
  tokens text = [] <-> blank (normalize text) = true.
Proof.
  unfold tokens, JSString.split_ws. split.
  - intros H. destruct (blank (normalize text)) eqn:B; [reflexivity|].
    exfalso. exact (split_go_not_blank _ false B H).
  - apply split_go_blank.
Qed.

(** The guard of line 18 is subsumed by the two tests that follow it:
    nothing is returned exactly when no emoji is counted and no token is
    found. *)
Lemma detectSentiment_absent (text : jsstring) :
  detectSentiment text = None <->
  blank text = true \/ (totalEmoji (tally text) = 0 /\ tokens text = []).
Proof.
  rewrite detectSentiment_None. split; [auto|].
  intros [B | H]; [|exact H].
  rewrite (tally_blank _ B), (tokens_blank _ B). split; reflexivity.
Qed.


Lemma two_code_points_never_yielded (e text : jsstring) :
  two_code_points e -> ~ In e (JSString.Array_from text).
Proof.
  intros [c [d [-> [Hc _]]]] Hin.
  pose proof (Array_from_code_point text) as H.
  rewrite Forall_forall in H. specialize (H _ Hin).
  inversion H; subst. congruence.
Qed.

(** C10. The entries "❤️" and "☹️" of the emoji sets are two code points
    each, a base character and the variation selector U+FE0F.  The scan
    tests one code point at a time, so no element it tests equals either
    entry, and a text made of these entries only leaves the three counters
    at zero.  For the input "❤️" no emoji is counted, no token is found,
    and the detector returns nothing. *)
Theorem C10_two_code_point_entries_never_match :
  (js "❤️" = [0x2764; 0xFE0F] /\ In (js "❤️") positiveEmojis) /\
  (js "☹️" = [0x2639; 0xFE0F] /\ In (js "☹️") negativeEmojis) /\
  (forall text : jsstring,
      ~ In (js "❤️") (JSString.Array_from text) /\
      ~ In (js "☹️") (JSString.Array_from text)) /\
  (forall l : list jsstring,
      Forall (fun e => e = js "❤️" \/ e = js "☹️") l ->
      tally (concat l) = {| posEmoji := 0; negEmoji := 0; neuEmoji := 0 |}) /\
  tally (js "❤️") = {| posEmoji := 0; negEmoji := 0; neuEmoji := 0 |} /\
  tokens (js "❤️") = [] /\
  detectSentiment (js "❤️") = None.
Proof.
  assert (Hh : two_code_points (js "❤️"))
    by (exists 0x2764, 0xFE0F; repeat split; reflexivity).
  assert (Hf : two_code_points (js "☹️"))
    by (exists 0x2639, 0xFE0F; repeat split; reflexivity).
  assert (Ht : tally (js "❤️") = {| posEmoji := 0; negEmoji := 0; neuEmoji := 0 |})
    by (vm_compute; reflexivity).
  assert (Hk : tokens (js "❤️") = []) by (vm_compute; reflexivity).
  split; [split; [reflexivity | apply has_In; vm_compute; reflexivity]|].
  split; [split; [reflexivity | apply has_In; vm_compute; reflexivity]|].
  split; [intros text; split; apply two_code_points_never_yielded; assumption|].
  split; [|split; [exact Ht | split; [exact Hk|]]].
  - intros l Hl. apply fold_tally_plain.
    induction Hl as [|e l [-> | ->] _ IH]; [reflexivity | |];
      cbn [concat]; rewrite forallb_app, IH; reflexivity.
  - apply detectSentiment_None. rewrite Ht, Hk. split; reflexivity.
Qed.

(** ** A listed emoji that is not detected *)

(** C1, at the input "❤️": the string is an entry of the positive set and
    is not white space, the specification promises a result for it, and
    the detector returns nothing.  The same holds for the entry "☹️" of the
    negative set. *)
Theorem C1_listed_emoji_alone_is_absent :
  (In (js "❤️") positiveEmojis /\ blank (js "❤️") = false /\
   detectSentiment (js "❤️") = None) /\
  (In (js "☹️") negativeEmojis /\ blank (js "☹️") = false /\
   detectSentiment (js "☹️") = None).
Proof.
  split; (split; [apply has_In; vm_compute; reflexivity|]);
    (split; [reflexivity|]);
    apply detectSentiment_None; split; vm_compute; reflexivity.
Qed.

(** ** The word pass: what a token is, and where the text is cut *)

Local Open Scope Z_scope.

Lemma kept_word_or_space (c : Z) :
  kept c = word_unit c || JSString.is_space c.
Proof. reflexivity. Qed.

Lemma word_unit_not_space (c : Z) :
  word_unit c = true -> JSString.is_space c = false.
Proof.
  unfold word_unit, JSString.is_space. intros H.
  apply not_true_is_false. intros Hs. bool_to_prop. lia.
Qed.

Lemma normalize_kept (text : jsstring) : forallb kept (normalize text) = true.
Proof.
  unfold normalize. apply forallb_forall. intros c Hc.
  apply in_map_iff in Hc as [d [<- _]].
  destruct (kept d) eqn:E; [exact E | reflexivity].
Qed.

Lemma split_go_units (Q : Z -> bool) (s : jsstring) (insep : bool) (cur : jsstring) :
  forallb Q cur = true ->
  (forall c, In c s -> JSString.is_space c = false -> Q c = true) ->
  Forall (fun p => forallb Q p = true) (JSString.split_go insep cur s).
Proof.
  revert insep cur. induction s as [|c s IH]; intros insep cur Hcur Hs.
  - repeat constructor. exact Hcur.
  - cbn [JSString.split_go]. destruct (JSString.is_space c) eqn:E.
    + assert (Hrest : Forall (fun p => forallb Q p = true)
                        (JSString.split_go true [] s)).
      { apply IH; [reflexivity|]. intros d Hd. apply Hs. right. exact Hd. }
      destruct insep; [exact Hrest | constructor; assumption].
    + apply IH.
      * rewrite forallb_app, Hcur. cbn. rewrite (Hs c (or_introl eq_refl) E).
        reflexivity.
      * intros d Hd. apply Hs. right. exact Hd.
Qed.

(** X1. Every token is a non-empty string over [a-z0-9'_]. *)
Theorem X1_tokens_are_words (text : jsstring) :
  Forall (fun t => t <> [] /\ forallb word_unit t = true) (tokens text).
Proof.
  apply Forall_forall. intros t Ht.
  unfold tokens, JSString.filter_Boolean in Ht.
  apply filter_In in Ht as [Hin Hne]. split.
  - destruct t; [discriminate | discriminate].
  - pose proof (split_go_units word_unit (normalize text) false []) as H.
    rewrite Forall_forall in H. apply H; [reflexivity | | exact Hin].
    intros c Hc Hsp.
    pose proof (normalize_kept text) as Hk. rewrite forallb_forall in Hk.
    specialize (Hk c Hc). rewrite kept_word_or_space, Hsp, orb_false_r in Hk.
    exact Hk.
Qed.

Lemma normalize_space_cons (x : Z) (b : jsstring) :
  JSString.is_space x = true -> normalize (x :: b) = x :: normalize b.
Proof.
  intros Hx. unfold normalize, JSString.toLowerCase. cbn [flat_map].
  rewrite (space_lower x Hx). cbn [app map]. rewrite (space_kept x Hx).
  reflexivity.
Qed.

Lemma tokens_app_ws (x : Z) (a b : jsstring) :
  JSString.is_space x = true -> tokens (a ++ x :: b) = tokens a ++ tokens b.
Proof.
  intros Hx. unfold tokens, JSString.split_ws.
  rewrite normalize_app, (normalize_space_cons x b Hx).
  apply split_go_app_space; [exact Hx | discriminate].
Qed.

(** X2. The text is cut at every white-space code unit: the tokens of
    [a ++ [x] ++ b], for a white-space unit [x], are the tokens of [a]
    followed by the tokens of [b]. *)
Theorem X2_tokens_cut_at_white_space (x : Z) (a b : jsstring) :
  JSString.is_space x = true -> tokens (a ++ x :: b) = tokens a ++ tokens b.
Proof. apply tokens_app_ws. Qed.

Lemma X2_tokens_cut_at_white_space_witness :
  JSString.is_space 0x0A = true /\
  tokens (js "so good!" ++ 0x0A :: js "NOT bad")
  = tokens (js "so good!") ++ tokens (js "NOT bad").
Proof.
  split; [reflexivity|].
  apply (X2_tokens_cut_at_white_space 0x0A). reflexivity.
Defined.

(** ** The emoji pass: what is scanned and what is counted *)

Lemma Array_from_concat (s : jsstring) : concat (JSString.Array_from s) = s.
Proof.
  assert (H : concat (JSString.Array_from s) = s /\
              forall c, concat (JSString.Array_from (c :: s)) = c :: s).
  { induction s as [|d s [IH1 IH2]].
    - split; [reflexivity | intros c; reflexivity].
    - split; [apply IH2|]. intros c.
      change (JSString.Array_from (c :: d :: s)) with
        (if JSString.is_high_surrogate c && JSString.is_low_surrogate d
         then [c; d] :: JSString.Array_from s
         else [c] :: JSString.Array_from (d :: s)).
      destruct (JSString.is_high_surrogate c && JSString.is_low_surrogate d);
        cbn [concat app]; [rewrite IH1 | rewrite IH2]; reflexivity. }
  apply H.
Qed.

Lemma Array_from_length (s : jsstring) :
  (length (JSString.Array_from s) <= length s)%nat.
Proof.
  assert (H : (length (JSString.Array_from s) <= length s)%nat /\
              forall c, (length (JSString.Array_from (c :: s)) <= S (length s))%nat).
  { induction s as [|d s [IH1 IH2]].
    - split; [apply Nat.le_refl | intros c; apply Nat.le_refl].
    - split; [apply IH2|]. intros c.
      change (JSString.Array_from (c :: d :: s)) with
        (if JSString.is_high_surrogate c && JSString.is_low_surrogate d
         then [c; d] :: JSString.Array_from s
         else [c] :: JSString.Array_from (d :: s)).
      destruct (JSString.is_high_surrogate c && JSString.is_low_surrogate d);
        cbn [length]; [|specialize (IH2 d)]; lia. }
  apply H.
Qed.

(** X3. The scan of line 29 cuts the text into code points and loses
    nothing: the pieces are single code units or surrogate pairs, their
    concatenation is the text, and there are at most as many pieces as
    code units. *)
Theorem X3_scan_partitions_text (text : jsstring) :
  concat (JSString.Array_from text) = text /\
  Forall code_point (JSString.Array_from text) /\
  (length (JSString.Array_from text) <= length text)%nat.
Proof.
  split; [apply Array_from_concat|].
  split; [apply Array_from_code_point | apply Array_from_length].
Qed.

Lemma positive_emoji_only (ch : jsstring) :
  JSString.has positiveEmojis ch = true ->
  JSString.has negativeEmojis ch = false /\ JSString.has neutralEmojis ch = false.
Proof.
  intros H. apply has_In in H. split; revert ch H; apply disjoint_has;
    vm_compute; reflexivity.
Qed.

Lemma negative_emoji_only (ch : jsstring) :
  JSString.has negativeEmojis ch = true -> JSString.has neutralEmojis ch = false.
Proof.
  intros H. apply has_In in H. revert ch H. apply disjoint_has.
  vm_compute. reflexivity.
Qed.

Lemma fold_tally_counts (l : list jsstring) (c : Tally) :
  fold_left tally_step l c =
  tally_add c
    {| posEmoji := Z.of_nat (length (filter (JSString.has positiveEmojis) l));
       negEmoji := Z.of_nat (length (filter (JSString.has negativeEmojis) l));
       neuEmoji := Z.of_nat (length (filter (JSString.has neutralEmojis) l)) |}.
Proof.
  revert c. induction l as [|ch l IH]; intros c.
  - destruct c. unfold tally_add. cbn. f_equal; lia.
  - cbn [fold_left filter]. rewrite IH. unfold tally_step, tally_add.
    destruct (JSString.has positiveEmojis ch) eqn:E1.
    + destruct (positive_emoji_only ch E1) as [-> ->].
      cbn [posEmoji negEmoji neuEmoji length]. f_equal; lia.
    + destruct (JSString.has negativeEmojis ch) eqn:E2.
      * rewrite (negative_emoji_only ch E2).
        cbn [posEmoji negEmoji neuEmoji length]. f_equal; lia.
      * destruct (JSString.has neutralEmojis ch);
          cbn [posEmoji negEmoji neuEmoji length]; f_equal; lia.
Qed.


Lemma emoji_kinds_le (l : list jsstring) :
  (length (filter (JSString.has positiveEmojis) l)
   + length (filter (JSString.has negativeEmojis) l)
   + length (filter (JSString.has neutralEmojis) l) <= length l)%nat.
Proof.
  induction l as [|ch l IH]; [apply Nat.le_refl|].
  cbn [filter].
  destruct (JSString.has positiveEmojis ch) eqn:E1.
  - destruct (positive_emoji_only ch E1) as [-> ->]. cbn [length]. lia.
  - destruct (JSString.has negativeEmojis ch) eqn:E2.
    + rewrite (negative_emoji_only ch E2). cbn [length]. lia.
    + destruct (JSString.has neutralEmojis ch); cbn [length]; lia.
Qed.

(** X4. Each counter is the number of scanned code points that belong to
    its set: the sets share no entry, so the order of the tests on lines
    30-32 never decides.  The three counters together never exceed the
    number of code units of the text. *)
Theorem X4_counters_count_members (text : jsstring) :
  posEmoji (tally text) =
    Z.of_nat (length (filter (JSString.has positiveEmojis) (JSString.Array_from text))) /\
  negEmoji (tally text) =
    Z.of_nat (length (filter (JSString.has negativeEmojis) (JSString.Array_from text))) /\
  neuEmoji (tally text) =
    Z.of_nat (length (filter (JSString.has neutralEmojis) (JSString.Array_from text))) /\
  0 <= totalEmoji (tally text) <= Z.of_nat (length text).
Proof.
  unfold tally, totalEmoji. rewrite fold_tally_counts.
  cbn [tally_add posEmoji negEmoji neuEmoji].
  repeat split; try lia.
  pose proof (emoji_kinds_le (JSString.Array_from text)).
  pose proof (Array_from_length text).
  unfold jsstring, JSString.t in *. lia.
Qed.

Lemma fold_tally_add (l : list jsstring) (c : Tally) :
  fold_left tally_step l c =
  tally_add c (fold_left tally_step l
                 {| posEmoji := 0; negEmoji := 0; neuEmoji := 0 |}).
Proof.
  rewrite (fold_tally_counts l c), (fold_tally_counts l {| posEmoji := 0 |}).
  unfold tally_add. cbn [posEmoji negEmoji neuEmoji]. reflexivity.
Qed.

Lemma tally_app_ws (x : Z) (a b : jsstring) :
  JSString.is_space x = true ->
  tally (a ++ x :: b) = tally_add (tally a) (tally b).
Proof.
  intros Hx. unfold tally at 1.
  pose proof (space_plain x Hx) as Hp. unfold plain in Hp.
  apply andb_true_iff in Hp as [Hh Hn].
  apply negb_true_iff in Hh. apply negb_true_iff, Z.eqb_neq in Hn.
  assert (Hl : JSString.is_low_surrogate x = false).
  { unfold JSString.is_space in Hx. unfold JSString.is_low_surrogate.
    apply not_true_is_false. intros Hs. bool_to_prop. lia. }
  rewrite (Array_from_break x b Hh Hl a), fold_left_app. cbn [fold_left].
  rewrite (not_emoji_step _ [x]).
  - fold (tally a). rewrite fold_tally_add. reflexivity.
  - intros H. apply single_unit_emoji in H. contradiction.
Qed.

(** X5. A white-space code unit separates the emoji pass as well: the
    counters of [a ++ [x] ++ b] are the sums of the counters of [a] and
    of [b]. *)
Theorem X5_counters_add_up (x : Z) (a b : jsstring) :
  JSString.is_space x = true ->
  tally (a ++ x :: b) = tally_add (tally a) (tally b).
Proof. apply tally_app_ws. Qed.

Lemma X5_counters_add_up_witness :
  JSString.is_space 0x20 = true /\
  tally (js "😊😢" ++ 0x20 :: js "🤔 ok 😊")
  = tally_add (tally (js "😊😢")) (tally (js "🤔 ok 😊")).
Proof.
  split; [reflexivity|].
  apply (X5_counters_add_up 0x20). reflexivity.
Defined.

(** ** The score: size, silence, symmetry *)

Local Open Scope R_scope.

Lemma negative_not_intensifier (w : jsstring) :
  In w negativeWords -> JSString.has intensifiers w = false.
Proof. apply disjoint_has. vm_compute. reflexivity. Qed.

Lemma negative_not_negation (w : jsstring) :
  In w negativeWords -> JSString.has negations w = false.
Proof. apply disjoint_has. vm_compute. reflexivity. Qed.

Lemma scaled_opp (prev : option jsstring) :
  scaled prev (-1) = - scaled prev 1.
Proof.
  unfold scaled.
  destruct (match prev with Some p => JSString.has intensifiers p | None => false end);
    destruct (match prev with Some p => JSString.has negations p | None => false end);
    lra.
Qed.

Lemma scaled_one_bounds (prev : option jsstring) :
  -1.6 <= scaled prev 1 <= 1.6.
Proof.
  unfold scaled.
  destruct (match prev with Some p => JSString.has intensifiers p | None => false end);
    destruct (match prev with Some p => JSString.has negations p | None => false end);
    lra.
Qed.

Lemma contribution_bounds (prev : option jsstring) (w : jsstring) :
  (lexicon_word w = true -> -1.6 <= contribution prev w <= 1.6) /\
  (lexicon_word w = false -> contribution prev w = 0).
Proof.
  unfold lexicon_word, contribution.
  pose proof (scaled_one_bounds prev) as H. pose proof (scaled_opp prev) as Ho.
  destruct (JSString.has positiveWords w); [split; [intros _; exact H | discriminate]|].
  destruct (JSString.has negativeWords w); cbn [orb];
    split; try discriminate; intros _; [lra | reflexivity].
Qed.

Lemma score_from_bounds (ts : list jsstring) (prev : option jsstring) :
  - (1.6 * INR (length (filter lexicon_word ts))) <= score_from prev ts
  <= 1.6 * INR (length (filter lexicon_word ts)).
Proof.
  revert prev. induction ts as [|w ts IH]; intros prev.
  - cbn. lra.
  - cbn [score_from filter]. specialize (IH (Some w)).
    destruct (contribution_bounds prev w) as [H1 H0].
    destruct (lexicon_word w).
    + specialize (H1 eq_refl). cbn [length]. rewrite S_INR. lra.
    + rewrite (H0 eq_refl). lra.
Qed.


Lemma wordConfidence_zero (n : Z) : wordConfidence 0 n = 0.6.
Proof.
  unfold wordConfidence. cbv zeta. rewrite Rabs_R0.
  replace (0 / Rmax 1 (sqrt (IZR n))) with 0 by (unfold Rdiv; ring).
  real_cases.
Qed.

Lemma filter_lexicon_nil (ts : list jsstring) :
  forallb (fun t => negb (lexicon_word t)) ts = true ->
  filter lexicon_word ts = [].
Proof.
  induction ts as [|t ts IH]; intros H; [reflexivity|].
  cbn [forallb] in H. apply andb_true_iff in H as [Ht Hs].
  apply negb_true_iff in Ht. cbn [filter]. rewrite Ht. apply IH, Hs.
Qed.

Lemma score_without_lexicon (ts : list jsstring) :
  forallb (fun t => negb (lexicon_word t)) ts = true -> wordScore ts = 0.
Proof.
  intros H. rewrite wordScore_from.
  pose proof (score_from_bounds ts None) as Hb.
  rewrite (filter_lexicon_nil ts H) in Hb. cbn in Hb. lra.
Qed.

(** Whatever the detector returns comes from one of lines 80, 84, 87, 92. *)
Lemma detect_result (text : jsstring) (r : Result) :
  detectSentiment text = Some r ->
  r = {| sentiment := dominantEmojiLabel text;
         confidence := Rmin 0.99 (combined text + 0.03) |} \/
  r = {| sentiment := dominantEmojiLabel text; confidence := combined text |} \/
  r = {| sentiment := lexicalLabel text; confidence := lexicalConfidence text |}.
Proof.
  unfold detectSentiment.
  destruct (JSString.falsy text || JSString.falsy (JSString.trim text));
    [discriminate|].
  cbv zeta.
  fold (lexicalLabel text) (lexicalConfidence text) (dominantEmojiLabel text).
  fold (combined text).
  destruct (totalEmoji (tally text) >? 0)%Z.
  - destruct (_ && _); [intros E; injection E as <-; auto|].
    destruct (_ >=? _)%Z; intros E; injection E as <-; auto.
  - destruct (length (tokens text) =? 0)%nat; [discriminate|].
    intros E; injection E as <-; auto.
Qed.

(** X7. Without a token of the two word lexicons and with as many
    positive as negative emoji (none at all included), a result, when
    there is one, is neutral with confidence 0.6. *)
Theorem X7_no_signal_is_neutral (text : jsstring) (r : Result) :
  forallb (fun t => negb (lexicon_word t)) (tokens text) = true ->
  posEmoji (tally text) = negEmoji (tally text) ->
  detectSentiment text = Some r ->
  r = {| sentiment := neutral; confidence := 0.6 |}.
Proof.
  intros Hl He Hr.
  assert (Hs : wordScore (tokens text) = 0) by (apply score_without_lexicon, Hl).
  assert (Hw : {| sentiment := lexicalLabel text;
                  confidence := lexicalConfidence text |}
               = {| sentiment := neutral; confidence := 0.6 |}).
  { unfold lexicalLabel, lexicalConfidence. rewrite Hs, wordConfidence_zero.
    rewrite wordSentiment_neutral by lra. reflexivity. }
  destruct (Z.eq_dec (totalEmoji (tally text)) 0) as [T | T].
  - revert Hr. unfold detectSentiment.
    destruct (JSString.falsy text || JSString.falsy (JSString.trim text));
      [discriminate|].
    cbv zeta. rewrite T. cbn [Z.gtb Z.compare].
    destruct (length (tokens text) =? 0)%nat; [discriminate|].
    fold (lexicalLabel text) (lexicalConfidence text).
    intros E. injection E as <-. exact Hw.
  - pose proof (totalEmoji_nonneg text) as Hn.
    assert (Ht : (0 < totalEmoji (tally text))%Z) by lia.
    pose proof (branch_fallback text Ht He) as Hb. cbv zeta in Hb.
    fold (lexicalLabel text) (lexicalConfidence text) in Hb.
    rewrite Hb in Hr. injection Hr as <-. exact Hw.
Qed.

Lemma detect_present (text : jsstring) :
  (0 < totalEmoji (tally text))%Z \/ tokens text <> [] ->
  exists r, detectSentiment text = Some r.
Proof.
  intros H. destruct (detectSentiment text) as [r|] eqn:E; [exists r; reflexivity|].
  apply detectSentiment_None in E as [E1 E2]. destruct H; [lia | contradiction].
Qed.

Lemma X7_no_signal_is_neutral_witness :
  tally (js "🤔 hmm, ok?") = {| posEmoji := 0; negEmoji := 0; neuEmoji := 1 |} /\
  tokens (js "🤔 hmm, ok?") = [js "hmm"; js "ok"] /\
  detectSentiment (js "🤔 hmm, ok?")
  = Some {| sentiment := neutral; confidence := 0.6 |}.
Proof.
  split; [vm_compute; reflexivity|]. split; [vm_compute; reflexivity|].
  destruct (detect_present (js "🤔 hmm, ok?")) as [r Hr];
    [right; vm_compute; discriminate|].
  rewrite Hr. f_equal.
  apply (X7_no_signal_is_neutral (js "🤔 hmm, ok?") r);
    [vm_compute; reflexivity | vm_compute; reflexivity | exact Hr].
Defined.

(** The weighted sum of line 75 stays below its cap. *)
Lemma combined_exact (text : jsstring) :
  combined text =
  emojiConfidenceBase (tally text) * 0.75 + lexicalConfidence text * 0.25 /\
  0.7125 <= combined text <= 0.95.
Proof.
  unfold combined, combinedConfidence.
  pose proof (emojiConfidenceBase_bounds (tally text) (totalEmoji_nonneg text)) as Hb.
  pose proof (wordConfidence_bounds (wordScore (tokens text))
                (Z.of_nat (length (tokens text)))) as Hw.
  fold (lexicalConfidence text) in Hw.
  rewrite Rmin_right by lra. split; [reflexivity | lra].
Qed.

(** X8. When the positive and the negative emoji counts differ, the label
    returned is the dominant emoji label, whatever the words say; the
    words only decide whether 0.03 is added to the combined confidence. *)
Theorem X8_emoji_lean_decides_label (text : jsstring) :
  posEmoji (tally text) <> negEmoji (tally text) ->
  exists conf : R,
    detectSentiment text =
    Some {| sentiment := dominantEmojiLabel text; confidence := conf |} /\
    (conf = combined text \/ conf = combined text + 0.03).
Proof.
  intros Hne.
  pose proof (tally_counts_nonneg text) as [Hp [Hn Hu]].
  assert (Ht : (0 < totalEmoji (tally text))%Z) by (unfold totalEmoji; lia).
  assert (Ha : (1 <= Z.abs (posEmoji (tally text) - negEmoji (tally text)))%Z)
    by lia.
  destruct (combined_exact text) as [_ Hc].
  destruct (Sentiment_eqb (lexicalLabel text) (dominantEmojiLabel text)) eqn:E1;
    [destruct (Sentiment_eqb (lexicalLabel text) neutral) eqn:E2|].
  - exists (combined text). split; [|left; reflexivity].
    apply Sentiment_eqb_eq in E2.
    exact (branch_emoji text Ht (or_introl E2) Ha).
  - exists (combined text + 0.03). split; [|right; reflexivity].
    apply Sentiment_eqb_eq in E1.
    assert (E3 : lexicalLabel text <> neutral).
    { intros H. apply Sentiment_eqb_eq in H. congruence. }
    pose proof (branch_agree text Ht E3 E1) as Hb. cbv zeta in Hb.
    fold (lexicalConfidence text) (dominantEmojiLabel text) in Hb.
    fold (combined text) in Hb.
    rewrite Rmin_right in Hb by lra. exact Hb.
  - exists (combined text). split; [|left; reflexivity].
    assert (E3 : lexicalLabel text <> dominantEmojiLabel text).
    { intros H. apply Sentiment_eqb_eq in H. congruence. }
    exact (branch_emoji text Ht (or_intror E3) Ha).
Qed.

(** In "great 🤔🤔😊" the one positive emoji is outnumbered by the neutral
    ones: the label is neutral although the words say positive. *)
Lemma X8_emoji_lean_decides_label_witness :
  tally (js "great 🤔🤔😊") = {| posEmoji := 1; negEmoji := 0; neuEmoji := 2 |} /\
  dominantEmojiLabel (js "great 🤔🤔😊") = neutral /\
  exists conf : R,
    detectSentiment (js "great 🤔🤔😊") =
    Some {| sentiment := neutral; confidence := conf |} /\
    (conf = combined (js "great 🤔🤔😊") \/
     conf = combined (js "great 🤔🤔😊") + 0.03).
Proof.
  assert (Ht : tally (js "great 🤔🤔😊")
               = {| posEmoji := 1; negEmoji := 0; neuEmoji := 2 |})
    by (vm_compute; reflexivity).
  assert (Hd : dominantEmojiLabel (js "great 🤔🤔😊") = neutral)
    by (unfold dominantEmojiLabel; rewrite Ht; reflexivity).
  split; [exact Ht|]. split; [exact Hd|].
  destruct (X8_emoji_lean_decides_label (js "great 🤔🤔😊")) as [conf [E Hc]];
    [rewrite Ht; discriminate|].
  exists conf. split; [rewrite <- Hd; exact E | exact Hc].
Defined.

(** X9. The caps 0.98 (line 75) and 0.99 (line 80) never take effect: the
    combined confidence is the plain weighted sum, at most 0.95, and the
    bonus of line 80 is a plain addition of 0.03. *)
Theorem X9_caps_never_bind (text : jsstring) :
  combined text =
  emojiConfidenceBase (tally text) * 0.75 + lexicalConfidence text * 0.25 /\
  combined text <= 0.95 /\
  Rmin 0.99 (combined text + 0.03) = combined text + 0.03.
Proof.
  destruct (combined_exact text) as [E Hc].
  split; [exact E|]. split; [lra|]. apply Rmin_right. lra.
Qed.

Lemma detect_confidence_range (text : jsstring) (r : Result) :
  detectSentiment text = Some r -> 0.6 <= confidence r <= 0.98.
Proof.
  intros Hr. destruct (combined_exact text) as [_ Hc].
  pose proof (wordConfidence_bounds (wordScore (tokens text))
                (Z.of_nat (length (tokens text)))) as Hw.
  fold (lexicalConfidence text) in Hw.
  destruct (detect_result text r Hr) as [-> | [-> | ->]]; cbn [confidence].
  - rewrite Rmin_right by lra. lra.
  - lra.
  - lra.
Qed.

(** X10. The confidence of a result is between 0.6 and 0.98. *)
Theorem X10_confidence_tight_range (text : jsstring) (r : Result) :
  detectSentiment text = Some r -> 0.6 <= confidence r <= 0.98.
Proof. apply detect_confidence_range. Qed.

Lemma X10_confidence_tight_range_witness :
  detectSentiment (js "good")
  = Some {| sentiment := positive; confidence := 0.95 |} /\
  0.6 <= 0.95 <= 0.98.
Proof.
  split; [exact detect_good|].
  exact (X10_confidence_tight_range (js "good")
           {| sentiment := positive; confidence := 0.95 |} detect_good).
Defined.

Lemma mirrored_same_kind (t t' : jsstring) :
  mirrored t t' ->
  JSString.has intensifiers t = JSString.has intensifiers t' /\
  JSString.has negations t = JSString.has negations t'.
Proof.
  intros [[Hp Hn] | [[Hn Hp] | [-> _]]].
  - rewrite (positive_not_intensifier t Hp), (negative_not_intensifier t' Hn),
      (positive_not_negation t Hp), (negative_not_negation t' Hn).
    split; reflexivity.
  - rewrite (positive_not_intensifier t' Hp), (negative_not_intensifier t Hn),
      (positive_not_negation t' Hp), (negative_not_negation t Hn).
    split; reflexivity.
  - split; reflexivity.
Qed.

Lemma contribution_mirrored (p p' : option jsstring) (t t' : jsstring) :
  (forall w, scaled p' w = scaled p w) -> mirrored t t' ->
  contribution p' t' = - contribution p t.
Proof.
  intros Hs [[Hp Hn] | [[Hn Hp] | [<- Hl]]]; unfold contribution.
  - rewrite (negative_not_positive t' Hn).
    apply has_In in Hp, Hn. rewrite Hp, Hn, Hs. apply scaled_opp.
  - rewrite (negative_not_positive t Hn).
    apply has_In in Hp, Hn. rewrite Hp, Hn, Hs, scaled_opp. lra.
  - unfold lexicon_word in Hl. apply orb_false_iff in Hl as [-> ->]. lra.
Qed.

Lemma score_from_mirrored (ts ts' : list jsstring) :
  Forall2 mirrored ts ts' ->
  forall p p', (forall w, scaled p' w = scaled p w) ->
  score_from p' ts' = - score_from p ts.
Proof.
  induction 1 as [|t t' ts ts' Ht _ IH]; intros p p' Hs.
  - cbn. lra.
  - cbn [score_from].
    rewrite (contribution_mirrored p p' t t' Hs Ht).
    rewrite (IH (Some t) (Some t')); [lra|].
    intros w. unfold scaled.
    destruct (mirrored_same_kind t t' Ht) as [-> ->]. reflexivity.
Qed.

Lemma wordSentiment_opp (score : R) :
  wordSentiment (- score) = flip (wordSentiment score).
Proof. unfold wordSentiment. real_cases. Qed.

(** X11. The two branches of the loop are mirror images: exchanging
    positive words for negative words and the other way round, token by
    token, negates the score; the label of the words flips and their
    confidence stays. *)
Theorem X11_mirrored_words_flip (ts ts' : list jsstring) :
  Forall2 mirrored ts ts' ->
  wordScore ts' = - wordScore ts /\
  wordSentiment (wordScore ts') = flip (wordSentiment (wordScore ts)) /\
  wordConfidence (wordScore ts') (Z.of_nat (length ts'))
  = wordConfidence (wordScore ts) (Z.of_nat (length ts)).
Proof.
  intros H.
  assert (E : wordScore ts' = - wordScore ts).
  { rewrite !wordScore_from. apply score_from_mirrored; [exact H | reflexivity]. }
  split; [exact E|]. rewrite E. split; [apply wordSentiment_opp|].
  unfold wordConfidence. rewrite Rabs_Ropp, (Forall2_length H). reflexivity.
Qed.

Lemma X11_mirrored_words_flip_witness :
  Forall2 mirrored (tokens (js "not very good, but boring"))
    (tokens (js "not very bad, but nice")) /\
  wordScore (tokens (js "not very bad, but nice"))
  = - wordScore (tokens (js "not very good, but boring")).
Proof.
  assert (H : Forall2 mirrored (tokens (js "not very good, but boring"))
                (tokens (js "not very bad, but nice"))).
  { replace (tokens (js "not very good, but boring"))
      with [js "not"; js "very"; js "good"; js "but"; js "boring"]
      by (vm_compute; reflexivity).
    replace (tokens (js "not very bad, but nice"))
      with [js "not"; js "very"; js "bad"; js "but"; js "nice"]
      by (vm_compute; reflexivity).
    apply Forall2_cons;
      [right; right; split; [reflexivity | vm_compute; reflexivity]|].
    apply Forall2_cons;
      [right; right; split; [reflexivity | vm_compute; reflexivity]|].
    apply Forall2_cons;
      [left; split; apply has_In; vm_compute; reflexivity|].
    apply Forall2_cons;
      [right; right; split; [reflexivity | vm_compute; reflexivity]|].
    apply Forall2_cons;
      [right; left; split; apply has_In; vm_compute; reflexivity|].
    apply Forall2_nil. }
  split; [exact H|].
  exact (proj1 (X11_mirrored_words_flip _ _ H)).
Defined.

(** ** What the result does not depend on *)

Local Open Scope Z_scope.

(** The detector reads the text through three things only. *)
Lemma detect_ext (t t' : jsstring) :
  blank t = blank t' -> tally t = tally t' -> tokens t = tokens t' ->
  detectSentiment t = detectSentiment t'.
Proof.
  intros Hb Hc Hk. unfold detectSentiment.
  rewrite !guard_blank, Hb, Hc, Hk. reflexivity.
Qed.

Lemma tally_add_zero_l (d : Tally) :
  tally_add {| posEmoji := 0; negEmoji := 0; neuEmoji := 0 |} d = d.
Proof. destruct d. reflexivity. Qed.

Lemma tally_add_zero_r (c : Tally) :
  tally_add c {| posEmoji := 0; negEmoji := 0; neuEmoji := 0 |} = c.
Proof. destruct c. unfold tally_add. cbn. f_equal; lia. Qed.

Lemma blank_prefix (a t : jsstring) :
  blank a = true -> tally (a ++ t) = tally t /\ tokens (a ++ t) = tokens t.
Proof.
  induction a as [|x a IH]; intros H; [split; reflexivity|].
  cbn [blank forallb] in H. apply andb_true_iff in H as [Hx Ha].
  destruct (IH Ha) as [IH1 IH2].
  change ((x :: a) ++ t) with ([] ++ x :: (a ++ t)).
  rewrite (tally_app_ws x [] (a ++ t) Hx), (tokens_app_ws x [] (a ++ t) Hx).
  rewrite IH1, IH2. split; [apply tally_add_zero_l | reflexivity].
Qed.

Lemma blank_suffix (t b : jsstring) :
  blank b = true -> tally (t ++ b) = tally t /\ tokens (t ++ b) = tokens t.
Proof.
  destruct b as [|x b]; intros H; [rewrite app_nil_r; split; reflexivity|].
  cbn [blank forallb] in H. apply andb_true_iff in H as [Hx Hb].
  rewrite (tally_app_ws x t b Hx), (tokens_app_ws x t b Hx).
  rewrite (tally_blank b Hb), (tokens_blank b Hb), app_nil_r.
  split; [apply tally_add_zero_r | reflexivity].
Qed.

(** X12. White space around the text does not matter: with white space
    only put before and after it, a text gets the same result. *)
Theorem X12_padding_does_not_matter (a text b : jsstring) :
  blank a = true -> blank b = true ->
  detectSentiment (a ++ text ++ b) = detectSentiment text.
Proof.
  intros Ha Hb.
  destruct (blank_prefix a (text ++ b) Ha) as [E1 E2].
  destruct (blank_suffix text b Hb) as [E3 E4].
  apply detect_ext.
  - rewrite !blank_app, Ha, Hb, andb_true_r. reflexivity.
  - rewrite E1. exact E3.
  - rewrite E2. exact E4.
Qed.

Lemma X12_padding_does_not_matter_witness :
  detectSentiment (js "  " ++ js "😊 great" ++ [0x0A; 0x09])
  = detectSentiment (js "😊 great").
Proof.
  apply (X12_padding_does_not_matter (js "  ") (js "😊 great") [0x0A; 0x09]);
    reflexivity.
Defined.

Section CaseMap.

(** A map on code units that moves nothing but code units between "A"
    and "z", and keeps the lower-case form of every code unit. *)
Variable f : Z -> Z.
Hypothesis f_lower : forall c, JSString.lower_unit (f c) = JSString.lower_unit c.
Hypothesis f_range :
  forall c, f c = c \/ (0x41 <= c <= 0x7A /\ 0x41 <= f c <= 0x7A).

Lemma case_map_high (c : Z) :
  JSString.is_high_surrogate (f c) = JSString.is_high_surrogate c.
Proof.
  destruct (f_range c) as [-> | [H1 H2]]; [reflexivity|].
  unfold JSString.is_high_surrogate.
  replace (0xD800 <=? f c) with false by (symmetry; apply Z.leb_gt; lia).
  replace (0xD800 <=? c) with false by (symmetry; apply Z.leb_gt; lia).
  reflexivity.
Qed.

Lemma case_map_low (c : Z) :
  JSString.is_low_surrogate (f c) = JSString.is_low_surrogate c.
Proof.
  destruct (f_range c) as [-> | [H1 H2]]; [reflexivity|].
  unfold JSString.is_low_surrogate.
  replace (0xDC00 <=? f c) with false by (symmetry; apply Z.leb_gt; lia).
  replace (0xDC00 <=? c) with false by (symmetry; apply Z.leb_gt; lia).
  reflexivity.
Qed.

Lemma case_map_space (c : Z) : JSString.is_space (f c) = JSString.is_space c.
Proof.
  destruct (f_range c) as [-> | [H1 H2]]; [reflexivity|].
  assert (E : forall d, 0x41 <= d <= 0x7A -> JSString.is_space d = false).
  { intros d Hd. unfold JSString.is_space. apply not_true_is_false. intros Hs.
    bool_to_prop. lia. }
  rewrite (E c H1), (E (f c) H2). reflexivity.
Qed.

Lemma case_map_Array_from (s : jsstring) :
  JSString.Array_from (map f s) = map (map f) (JSString.Array_from s).
Proof.
  assert (H : JSString.Array_from (map f s) = map (map f) (JSString.Array_from s) /\
              forall c, JSString.Array_from (map f (c :: s))
                        = map (map f) (JSString.Array_from (c :: s))).
  { induction s as [|d s [IH1 IH2]].
    - split; [reflexivity | intros c; reflexivity].
    - split; [apply IH2|]. intros c. cbn [map].
      change (JSString.Array_from (f c :: f d :: map f s)) with
        (if JSString.is_high_surrogate (f c) && JSString.is_low_surrogate (f d)
         then [f c; f d] :: JSString.Array_from (map f s)
         else [f c] :: JSString.Array_from (map f (d :: s))).
      change (JSString.Array_from (c :: d :: s)) with
        (if JSString.is_high_surrogate c && JSString.is_low_surrogate d
         then [c; d] :: JSString.Array_from s
         else [c] :: JSString.Array_from (d :: s)).
      rewrite case_map_high, case_map_low.
      destruct (JSString.is_high_surrogate c && JSString.is_low_surrogate d);
        cbn [map]; f_equal; [exact IH1 | exact (IH2 d)]. }
  apply H.
Qed.

Lemma case_map_step (c : Tally) (ch : jsstring) :
  code_point ch -> tally_step c (map f ch) = tally_step c ch.
Proof.
  intros [x | x y Hx Hy]; cbn [map].
  - destruct (f_range x) as [-> | [H1 H2]]; [reflexivity|].
    rewrite !not_emoji_step; [reflexivity | |];
      intros H; apply single_unit_emoji in H; lia.
  - destruct (f_range x) as [-> | [H1 _]].
    + destruct (f_range y) as [-> | [H2 _]]; [reflexivity|].
      unfold JSString.is_low_surrogate in Hy. bool_to_prop. lia.
    + unfold JSString.is_high_surrogate in Hx. bool_to_prop. lia.
Qed.

Lemma case_map_detect (text : jsstring) :
  detectSentiment (map f text) = detectSentiment text.
Proof.
  apply detect_ext.
  - unfold blank. induction text as [|c text IH]; [reflexivity|].
    cbn [map forallb]. rewrite case_map_space, IH. reflexivity.
  - unfold tally. rewrite case_map_Array_from.
    pose proof (Array_from_code_point text) as Hcp.
    generalize {| posEmoji := 0; negEmoji := 0; neuEmoji := 0 |}.
    induction Hcp as [|ch l Hch _ IH]; intros c; [reflexivity|].
    cbn [map fold_left]. rewrite (case_map_step c ch Hch). apply IH.
  - unfold tokens, normalize, JSString.toLowerCase. do 3 f_equal.
    induction text as [|c text IH]; [reflexivity|].
    cbn [map flat_map]. rewrite f_lower, IH. reflexivity.
Qed.

End CaseMap.

(** X13. The case of ASCII letters does not matter: a text, the text with
    its letters a-z in upper case, and the text with its letters A-Z in
    lower case get the same result. *)
Theorem X13_case_does_not_matter (text : jsstring) :
  detectSentiment (map ascii_upper text) = detectSentiment text /\
  detectSentiment (map ascii_lower text) = detectSentiment text.
Proof.
  split; apply case_map_detect; intros c.
  - unfold ascii_upper, JSString.lower_unit.
    destruct ((0x61 <=? c) && (c <=? 0x7A)) eqn:E; [|reflexivity].
    replace ((0x41 <=? c - 0x20) && (c - 0x20 <=? 0x5A)) with true
      by (symmetry; bool_to_prop; lia).
    replace ((0x41 <=? c) && (c <=? 0x5A)) with false
      by (symmetry; bool_to_prop; lia).
    replace (c =? 0x212A) with false by (symmetry; bool_to_prop; lia).
    replace (c =? 0x130) with false by (symmetry; bool_to_prop; lia).
    f_equal. lia.
  - unfold ascii_upper.
    destruct ((0x61 <=? c) && (c <=? 0x7A)) eqn:E; [right | left; reflexivity].
    bool_to_prop. lia.
  - unfold ascii_lower.
    destruct ((0x41 <=? c) && (c <=? 0x5A)) eqn:E; [|reflexivity].
    unfold JSString.lower_unit. rewrite E.
    replace ((0x41 <=? c + 0x20) && (c + 0x20 <=? 0x5A)) with false
      by (symmetry; bool_to_prop; lia).
    replace (c + 0x20 =? 0x212A) with false by (symmetry; bool_to_prop; lia).
    replace (c + 0x20 =? 0x130) with false by (symmetry; bool_to_prop; lia).
    reflexivity.
  - unfold ascii_lower.
    destruct ((0x41 <=? c) && (c <=? 0x5A)) eqn:E; [right | left; reflexivity].
    bool_to_prop. lia.
Qed.

Lemma normalize_blank_iff (text : jsstring) :
  blank (normalize text) =
  forallb (fun c => negb (word_unit c)) (JSString.toLowerCase text).
Proof.
  unfold normalize, blank.
  induction (JSString.toLowerCase text) as [|c l IH]; [reflexivity|].
  cbn [map forallb]. rewrite IH. f_equal.
  rewrite kept_word_or_space. destruct (word_unit c) eqn:W; cbn [orb negb].
  - apply word_unit_not_space, W.
  - destruct (JSString.is_space c) eqn:S; [exact S | reflexivity].
Qed.

(** X14. Nothing is returned exactly when the scan counts no emoji and the
    lower-cased text has no code unit of [a-z0-9'_].  The guard of line 18
    is a case of this: a blank text passes both tests. *)
Theorem X14_absent_exactly_when (text : jsstring) :
  (detectSentiment text = None <->
   totalEmoji (tally text) = 0 /\
   forallb (fun c => negb (word_unit c)) (JSString.toLowerCase text) = true) /\
  (blank text = true ->
   totalEmoji (tally text) = 0 /\
   forallb (fun c => negb (word_unit c)) (JSString.toLowerCase text) = true).
Proof.
  split.
  - rewrite detectSentiment_None, tokens_nil_iff, normalize_blank_iff.
    reflexivity.
  - intros B. rewrite <- normalize_blank_iff, (normalize_blank text B).
    rewrite (tally_blank text B). split; [reflexivity | exact B].
Qed.

(** ** The component *)

Lemma falsy_trim (c : jsstring) :
  JSString.falsy (JSString.trim c) = blank c.
Proof.
  destruct (blank c) eqn:B.
  - apply trim_nil in B. rewrite B. reflexivity.
  - destruct (JSString.trim c) eqn:E; [|reflexivity].
    apply trim_nil in E. congruence.
Qed.

Lemma callback_timers (c : jsstring) (s : Component) :
  timers (timeout_callback c s) = timers s.
Proof.
  unfold timeout_callback. cbv zeta. destruct (detectSentiment c); reflexivity.
Qed.

Lemma pending_ok (s : Component) :
  reachable s ->
  Forall (fun t => fst t = 600 /\ blank (snd t) = false) (timers s).
Proof.
  induction 1 as [| s s' _ IH Hstep]; [constructor|].
  destruct Hstep as [s v | s | s pre post d c E].
  - exact IH.
  - unfold analyzeSentiment. rewrite falsy_trim.
    destruct (blank (comment s)) eqn:B; cbn [timers toast_error setTimeout setLoading].
    + exact IH.
    + apply Forall_app. split; [exact IH|]. repeat constructor. exact B.
  - rewrite callback_timers. cbn [timers drop_timer].
    rewrite E in IH. apply Forall_app in IH as [H1 H2].
    apply Forall_app. split; [exact H1|]. inversion H2; assumption.
Qed.

(** X15. Every callback that waits to run was scheduled with a delay of
    600 and holds a comment that is not blank: when it runs, the guard of
    line 18 is false. *)
Theorem X15_pending_comments_not_blank (s : Component) (delay : Z) (captured : jsstring) :
  reachable s -> In (delay, captured) (timers s) ->
  delay = 600 /\ blank captured = false /\
  JSString.falsy captured || JSString.falsy (JSString.trim captured) = false.
Proof.
  intros Hr Hin. pose proof (pending_ok s Hr) as H.
  rewrite Forall_forall in H. destruct (H _ Hin) as [H1 H2].
  split; [exact H1|]. split; [exact H2 | rewrite guard_blank; exact H2].
Qed.

Example reachable_pending :
  reachable (analyzeSentiment (setComment (js "❤️") initial)).
Proof.
  eapply reach_step; [|apply step_click].
  eapply reach_step; [apply reach_initial | apply step_change].
Qed.

Lemma X15_pending_comments_not_blank_witness :
  In (600, js "❤️") (timers (analyzeSentiment (setComment (js "❤️") initial))) /\
  blank (js "❤️") = false /\
  JSString.falsy (js "❤️") || JSString.falsy (JSString.trim (js "❤️")) = false.
Proof.
  assert (Hin : In (600, js "❤️")
                  (timers (analyzeSentiment (setComment (js "❤️") initial))))
    by (left; reflexivity).
  split; [exact Hin|].
  exact (proj2 (X15_pending_comments_not_blank _ 600 (js "❤️")
                  reachable_pending Hin)).
Defined.

(** X16. When a waiting callback runs, [loading] ends false and one of two
    things has happened.  Either the detector returned a result: it is
    the new [result], and no message is shown.  Or it returned nothing,
    which for these comments means that no emoji was counted and no token
    found: the message is shown and [result] is left as it was, a result
    shown before included. *)
Theorem X16_callback_outcome (s : Component) (pre post : list (Z * jsstring))
    (delay : Z) (captured : jsstring) :
  reachable s -> timers s = pre ++ (delay, captured) :: post ->
  let s' := timeout_callback captured (drop_timer pre post s) in
  loading s' = false /\ comment s' = comment s /\ timers s' = pre ++ post /\
  ((exists r, detectSentiment captured = Some r /\
              result s' = Some r /\ toasts s' = toasts s) \/
   (detectSentiment captured = None /\
    totalEmoji (tally captured) = 0 /\ tokens captured = [] /\
    blank captured = false /\
    result s' = result s /\
    toasts s' = toasts s ++
      ["Couldn't detect sentiment. Try a longer comment or add some context/emojis."%string])).
Proof.
  intros Hr E s'.
  assert (Hin : In (delay, captured) (timers s))
    by (rewrite E; apply in_or_app; right; left; reflexivity).
  pose proof (pending_ok s Hr) as H. rewrite Forall_forall in H.
  destruct (H _ Hin) as [_ Hb]. cbn [snd] in Hb.
  subst s'. unfold timeout_callback. cbv zeta.
  destruct (detectSentiment captured) as [r|] eqn:D.
  - repeat split. left. exists r. repeat split.
  - repeat split. right. apply detectSentiment_None in D as [D1 D2].
    repeat split; assumption.
Qed.

Lemma X16_callback_outcome_witness :
  let s := analyzeSentiment (setComment (js "❤️") initial) in
  let s' := timeout_callback (js "❤️") (drop_timer [] [] s) in
  timers s = [(600, js "❤️")] /\
  loading s' = false /\ result s' = None /\
  toasts s' =
    ["Couldn't detect sentiment. Try a longer comment or add some context/emojis."%string].
Proof.
  intros s s'.
  assert (E : timers s = [] ++ (600, js "❤️") :: []) by reflexivity.
  destruct (X16_callback_outcome s [] [] 600 (js "❤️") reachable_pending E)
    as [Hl [_ [_ [[r [D _]] | [_ [_ [_ [_ [Hres Ht]]]]]]]]].
  - exfalso. assert (N : detectSentiment (js "❤️") = None)
      by (apply detectSentiment_None; split; vm_compute; reflexivity).
    rewrite N in D. discriminate D.
  - split; [reflexivity|]. split; [exact Hl|]. split; [exact Hres | exact Ht].
Defined.

Lemma callback_result (c : jsstring) (s : Component) :
  result (timeout_callback c s) =
  match detectSentiment c with Some d => Some d | None => result s end.
Proof.
  unfold timeout_callback. cbv zeta. destruct (detectSentiment c); reflexivity.
Qed.

Lemma analyze_result (s : Component) : result (analyzeSentiment s) = result s.
Proof.
  unfold analyzeSentiment.
  destruct (JSString.falsy (JSString.trim (comment s))); reflexivity.
Qed.

(** X17. No step of the component takes a result away: once the card is
    shown it stays, also after an analysis that detects nothing. *)
Theorem X17_result_never_cleared (s s' : Component) (r : Result) :
  step s s' -> result s = Some r -> exists r', result s' = Some r'.
Proof.
  intros Hstep Hr. destruct Hstep as [s v | s | s pre post d c E].
  - exists r. exact Hr.
  - exists r. rewrite analyze_result. exact Hr.
  - rewrite callback_result. cbn [result drop_timer].
    destruct (detectSentiment c) as [d'|]; [exists d' | exists r; exact Hr];
      reflexivity.
Qed.

Lemma X17_result_never_cleared_witness :
  let s := {| comment := js "ok"; result := Some {| sentiment := positive; confidence := 0.95 |};
              loading := true; toasts := []; timers := [(600, js "❤️")] |} in
  step s (timeout_callback (js "❤️") (drop_timer [] [] s)) /\
  detectSentiment (js "❤️") = None /\
  exists r', result (timeout_callback (js "❤️") (drop_timer [] [] s)) = Some r'.
Proof.
  intros s.
  assert (Hs : step s (timeout_callback (js "❤️") (drop_timer [] [] s)))
    by (apply (step_timeout s [] [] 600 (js "❤️")); reflexivity).
  split; [exact Hs|].
  split; [apply detectSentiment_None; split; vm_compute; reflexivity|].
  exact (X17_result_never_cleared s _ _ Hs eq_refl).
Defined.

Lemma shown_result_origin (s : Component) :
  reachable s ->
  forall r, result s = Some r -> exists c, detectSentiment c = Some r.
Proof.
  induction 1 as [| s s' _ IH Hstep]; intros r Hr; [discriminate Hr|].
  destruct Hstep as [s v | s | s pre post d c E].
  - exact (IH r Hr).
  - rewrite analyze_result in Hr. exact (IH r Hr).
  - rewrite callback_result in Hr. cbn [result drop_timer] in Hr.
    destruct (detectSentiment c) as [d'|] eqn:D.
    + injection Hr as <-. exists c. exact D.
    + exact (IH r Hr).
Qed.

(** X18. A result the component shows is what the detector returned for
    some comment that was not blank; its confidence is between 0.6 and
    0.98, so the card shows between 60 and 98 percent. *)
Theorem X18_shown_result_is_detected (s : Component) (r : Result) :
  reachable s -> result s = Some r ->
  (exists c, blank c = false /\ detectSentiment c = Some r) /\
  (0.6 <= confidence r <= 0.98)%R /\
  (60 <= confidence r * 100 <= 98)%R.
Proof.
  intros Hs Hr. destruct (shown_result_origin s Hs r Hr) as [c D].
  pose proof (detect_confidence_range c r D) as Hc.
  split; [|split; [exact Hc | lra]].
  exists c. split; [|exact D].
  destruct (blank c) eqn:B; [|reflexivity].
  assert (N : detectSentiment c = None) by (apply detectSentiment_absent; auto).
  congruence.
Qed.

Example reachable_shown :
  reachable (timeout_callback (js "good")
               (drop_timer [] [] (analyzeSentiment (setComment (js "good") initial)))).
Proof.
  eapply reach_step.
  - eapply reach_step; [|apply step_click].
    eapply reach_step; [apply reach_initial | apply step_change].
  - apply (step_timeout _ [] [] 600 (js "good")). reflexivity.
Qed.

Lemma X18_shown_result_is_detected_witness :
  let s := timeout_callback (js "good")
             (drop_timer [] [] (analyzeSentiment (setComment (js "good") initial))) in
  result s = Some {| sentiment := positive; confidence := 0.95 |} /\
  (60 <= 0.95 * 100 <= 98)%R.
Proof.
  intros s.
  assert (Hr : result s = Some {| sentiment := positive; confidence := 0.95 |}).
  { unfold s. rewrite callback_result, detect_good. reflexivity. }
  split; [exact Hr|].
  exact (proj2 (proj2 (X18_shown_result_is_detected s _ reachable_shown Hr))).
Defined.

Lemma callback_loading (c : jsstring) (s : Component) :
  loading (timeout_callback c s) = false.
Proof.
  unfold timeout_callback. cbv zeta. destruct (detectSentiment c); reflexivity.
Qed.

(** X19. With the button disabled while [loading] holds (line 149), at
    most one callback waits at any time, and [loading] holds exactly while
    one does. *)
Theorem X19_one_analysis_in_flight (s : Component) :
  ui_reachable s ->
  (loading s = false /\ timers s = []) \/
  (loading s = true /\ exists c, timers s = [(600, c)]).
Proof.
  induction 1 as [| s s' _ IH Hstep]; [left; split; reflexivity|].
  destruct Hstep as [s v | s Hl | s pre post d c E].
  - exact IH.
  - destruct IH as [[_ Ht] | [Ht _]]; [|congruence].
    unfold analyzeSentiment.
    destruct (JSString.falsy (JSString.trim (comment s))).
    + left. split; [exact Hl | exact Ht].
    + right. split; [reflexivity|]. exists (comment s).
      cbn [timers setTimeout setLoading]. rewrite Ht. reflexivity.
  - left. rewrite callback_loading, callback_timers. cbn [timers drop_timer].
    split; [reflexivity|].
    destruct IH as [[_ Ht] | [_ [c0 Ht]]]; rewrite Ht in E.
    + destruct pre; discriminate E.
    + destruct pre as [|x pre].
      * injection E as _ _ <-. reflexivity.
      * injection E as _ E. destruct pre; discriminate E.
Qed.

Example ui_reachable_pending :
  ui_reachable (analyzeSentiment (setComment (js "good") initial)).
Proof.
  eapply ui_next; [|apply ui_click; reflexivity].
  eapply ui_next; [apply ui_initial | apply ui_change].
Qed.

Lemma X19_one_analysis_in_flight_witness :
  let s := analyzeSentiment (setComment (js "good") initial) in
  loading s = true /\
  ((loading s = false /\ timers s = []) \/
   (loading s = true /\ exists c, timers s = [(600, c)])).
Proof.
  intros s. split; [reflexivity|].
  exact (X19_one_analysis_in_flight s ui_reachable_pending).
Defined.

(** X20. The callback works on the comment as it was when the button was
    clicked: after a click, a change of the text, and the run of the
    callback, the text is the new one and the result is the one of the
    old text. *)
Theorem X20_result_of_the_clicked_comment (s : Component) (value : jsstring) (r : Result) :
  blank (comment s) = false -> timers s = [] ->
  detectSentiment (comment s) = Some r ->
  let s2 := setComment value (analyzeSentiment s) in
  let s3 := timeout_callback (comment s) (drop_timer [] [] s2) in
  timers s2 = [(600, comment s)] /\
  step s2 s3 /\
  comment s3 = value /\ result s3 = Some r /\ loading s3 = false.
Proof.
  intros Hb Ht Hd s2 s3.
  assert (E : timers s2 = [(600, comment s)]).
  { unfold s2, analyzeSentiment. rewrite falsy_trim, Hb.
    cbn [timers setComment setTimeout setLoading]. rewrite Ht. reflexivity. }
  split; [exact E|]. split; [apply (step_timeout s2 [] [] 600); exact E|].
  unfold s3. rewrite callback_result, callback_loading, Hd.
  unfold timeout_callback. cbv zeta. rewrite Hd. repeat split.
Qed.

Lemma X20_result_of_the_clicked_comment_witness :
  let s := setComment (js "good") initial in
  let s2 := setComment (js "terrible") (analyzeSentiment s) in
  let s3 := timeout_callback (js "good") (drop_timer [] [] s2) in
  comment s3 = js "terrible" /\
  result s3 = Some {| sentiment := positive; confidence := 0.95 |}.
Proof.
  intros s s2 s3.
  destruct (X20_result_of_the_clicked_comment s (js "terrible")
              {| sentiment := positive; confidence := 0.95 |}
              eq_refl eq_refl detect_good) as [_ [_ [H1 [H2 _]]]].
  split; [exact H1 | exact H2].
Defined.

(** X21. The colour classes and the icon of the card are there exactly
    when a result is there, and they tell the three sentiments apart: two
    results get the same colour, or the same icon, exactly when they have
    the same sentiment, whatever their confidence. *)
Theorem X21_card_shows_the_sentiment :
  (forall res : option Result,
      (getSentimentColor res = EmptyString <-> res = None) /\
      (getSentimentIcon res = None <-> res = None)) /\
  (forall r1 r2 : Result,
      (getSentimentColor (Some r1) = getSentimentColor (Some r2)
       <-> sentiment r1 = sentiment r2) /\
      (getSentimentIcon (Some r1) = getSentimentIcon (Some r2)
       <-> sentiment r1 = sentiment r2)).
Proof.
  split.
  - intros [r|]; unfold getSentimentColor, getSentimentIcon.
    + destruct (sentiment r); repeat split; discriminate.
    + repeat split.
  - intros r1 r2. unfold getSentimentColor, getSentimentIcon.
    destruct (sentiment r1), (sentiment r2);
      repeat split; intros H; try reflexivity; discriminate H.
Qed.
